(** * R7 notebooks: a Rocq model of the tutorial workflow

  The repository is a set of Jupyter notebooks that call two vendor SDKs
  (a warehouse connector and a managed machine-learning platform).  This
  development embeds the code cells the properties below are about:

  - [Py]            Python values and dictionary literals;
  - [Snowflake]     connect-to-snowflake.ipynb (fetch, mutate, write back);
  - [DataPrep]      the data-preparation notebook and preprocessing.py;
  - [Training]      the estimator parameter dictionaries;
  - [Orchestration] the Step Functions chain and the resource names;
  - [Deploy]        pytorch-workflow-3-deploy.ipynb (endpoints, clean up);
  - [Serving]       the local serving test (GET /ping);
  - [Cells]         every notebook as a sequence of SDK calls with the
                    exception handlers the cells install.

  Definitions come first, the theorems follow. *)

From Stdlib Require Import ZArith QArith Reals Lra List.
From Stdlib Require Floats Uint63.
From stdpp Require Import gmap strings list fin_maps.

(* ===================================================================== *)
(** * Part I: definitions                                                  *)
(* ===================================================================== *)

(** ** Python values *)

Module Py.

(** The values that occur in the notebooks' dictionary literals and table
    cells.  A float literal is kept as the decimal fraction it denotes. *)
#[warnings="-register-all"]
Inductive value : Type :=
| VNone
| VInt (n : Z)
| VFloat (q : Q)
| VStr (s : string)
| VBool (b : bool)
| VList (items : list value)
| VDict (entries : list (string * value)).

(** A dictionary literal, in the order it is written. *)
Definition dict : Type := list (string * value).

(** [d[k]], as [None] where Python raises [KeyError]. *)
Fixpoint dict_get (k : string) (d : dict) : option value :=
  match d with
  | [] => None
  | (k', v) :: d' => if String.eqb k k' then Some v else dict_get k d'
  end.

(** [len(d) > 0] for a value that is a dictionary. *)
Definition is_nonempty_dict (v : value) : bool :=
  match v with
  | VDict (_ :: _) => true
  | _ => false
  end.

End Py.

(** ** Warehouse connector notebook *)

Module Snowflake.
Import Py.

(** A DataFrame as the finite map from a row label and a column label to
    the value of that cell; a cell that is absent holds no value. *)
Abbreviation DataFrame := (gmap (Z * string) value).

(** [random.randint(a, b)]: [a] plus a number below [b - a + 1]; [draw] is
    the raw output of the generator that [random.seed] has set up. *)
Definition randint (a b : Z) (draw : Z) : Z :=
  (a + draw `mod` (b - a + 1))%Z.

(** [df.loc[row, col] = v] *)
Definition loc_set (row : Z) (col : string) (v : value) (df : DataFrame)
  : DataFrame :=
  <[(row, col) := v]> df.

(** What the notebook hands to [write_pandas(ctx, df, table)], and the
    number it drew. *)
Record written : Type := Written {
  temp : Z;
  df_written : DataFrame;
  table : string
}.

(** The cells from [df = cur.fetch_pandas_all()] to [write_pandas]: the one
    DataFrame object is changed in place and passed on. *)
Definition notebook (fetched : DataFrame) (draw : Z) : written :=
  let df := fetched in
  let temp := randint 0 100 draw in
  let df := loc_set 0 "X0" (VInt temp) df in
  Written temp df "MGML_AWS_SOURCE".

End Snowflake.

(** ** Data-preparation notebook and preprocessing.py *)

Module DataPrep.

(** *** The train/test split *)

(** [training_index = math.floor(.8 * n)] for [n] rows: the whole part of
    eight tenths of [n]. *)
Definition training_index (n : nat) : nat := 8 * n / 10.

(** [math.floor] of a binary64 number. *)
Definition floor_float (f : PrimFloat.float) : Z :=
  match FloatOps.Prim2SF f with
  | SpecFloat.S754_finite false m e => Z.shiftl (Z.pos m) e
  | SpecFloat.S754_finite true m e => Z.shiftl (Z.neg m) e
  | _ => 0%Z
  end.

(** The literal [.8] as binary64: 0x1.999999999999ap-1, that is
    7205759403792794 / 2^53. *)
Definition point_eight : PrimFloat.float :=
  FloatOps.SF2Prim (SpecFloat.S754_finite false 7205759403792794 (-53)).

(** The same expression as Python evaluates it: the row count is converted
    to binary64 and the product is rounded before the floor is taken. *)
Definition training_index_float (n : nat) : Z :=
  floor_float
    (PrimFloat.mul point_eight
       (PrimFloat.of_uint63 (Uint63.of_Z (Z.of_nat n)))).

(** The four slices the cell takes. *)
Record split (A B : Type) : Type := Split {
  x_train : list A;
  y_train : list B;
  x_test : list A;
  y_test : list B
}.
Arguments Split {A B}.
Arguments x_train {A B}.
Arguments y_train {A B}.
Arguments x_test {A B}.
Arguments y_test {A B}.

(** [x[:training_index], y[:training_index]] and
    [x[training_index:], y[training_index:]], the index taken from the
    number of rows of [x]. *)
Definition train_test_split {A B : Type} (x : list A) (y : list B)
  : split A B :=
  let training_index := training_index (length x) in
  Split (take training_index x) (take training_index y)
        (drop training_index x) (drop training_index y).

(** *** Arrays and the scaler *)

(** A two-dimensional float64 array as the list of its rows. *)
Definition matrix : Type := list (list PrimFloat.float).

(** [X.shape[1]] *)
Definition ncols (X : matrix) : nat :=
  match X with
  | [] => 0
  | row :: _ => length row
  end.

(** What the scaler raises for an array it does not accept. *)
Inductive exception : Type :=
| ValueError.

(** [scaler.fit_transform(raw)].  The scaler is an object of the scaling
    library, which is not part of the repository.  [fit] starts afresh at
    every call, so the result depends on the array alone.  The library
    first checks the array: one without a row ("Found array with 0
    sample(s)") or without a column ("0 feature(s)") is refused with
    [ValueError].  What the installed version does with any other array,
    the check of its entries and the standardisation of its columns in
    float64 arithmetic, is [standardise]; it may raise as well. *)
Definition fit_transform (standardise : matrix → exception + matrix)
    (X : matrix) : exception + matrix :=
  if decide (length X = 0) then inl ValueError
  else if decide (ncols X = 0) then inl ValueError
  else standardise X.

(** *** The script *)

(** [needle in hay] for strings. *)
Fixpoint contains (needle hay : string) : bool :=
  String.prefix needle hay ||
  match hay with
  | EmptyString => false
  | String _ rest => contains needle rest
  end.

Fixpoint ends_with_slash (a : string) : bool :=
  match a with
  | EmptyString => false
  | String c EmptyString => String.eqb (String c EmptyString) "/"
  | String _ rest => ends_with_slash rest
  end.

(** [os.path.join(a, b)] on POSIX: an absolute [b] replaces [a]; otherwise
    the two are joined by one slash unless [a] is empty or ends in one. *)
Definition path_join (a b : string) : string :=
  if String.prefix "/" b then b
  else if String.eqb a "" || ends_with_slash a then a +:+ b
  else a +:+ "/" +:+ b.

(** What the script has done so far: the [np.save] calls in order and the
    files they leave (the lines it prints are not kept). *)
Record script_state : Type := ScriptState {
  saved : list (string * matrix);
  disk : gmap string matrix
}.

(** [np.save(output_path, transformed)] overwrites the file. *)
Definition np_save (output_path : string) (a : matrix) (st : script_state)
  : script_state :=
  ScriptState (saved st ++ [(output_path, a)])
              (<[output_path := a]> (disk st)).

(** The path the body of the loop saves a file to. *)
Definition output_path (file : string) : string :=
  if contains "train" file
  then path_join "/opt/ml/processing/train" "x_train.npy"
  else path_join "/opt/ml/processing/test" "x_test.npy".

(** How a run of the script ends: what it has done on exit, and the
    exception that ended it, if one did (nothing in the script catches
    one). *)
Record script_run : Type := ScriptRun {
  at_exit : script_state;
  uncaught : option exception
}.

Section Script.
Variable standardise : matrix → exception + matrix.

(** One iteration of [for file in input_files]; [raw] is what
    [np.load(file)] returns.  When [fit_transform] raises, nothing is
    saved for the file. *)
Definition loop_body (st : script_state) (input : string * matrix)
  : exception + script_state :=
  let '(file, raw) := input in
  match fit_transform standardise raw with
  | inl e => inl e
  | inr transformed =>
      inr (if contains "train" file then
             np_save (path_join "/opt/ml/processing/train" "x_train.npy")
                     transformed st
           else
             np_save (path_join "/opt/ml/processing/test" "x_test.npy")
                     transformed st)
  end.

(** [for file in input_files: ...]: the files are taken in order; an
    exception ends the loop and the script, what was saved before stays. *)
Fixpoint for_loop (input_files : list (string * matrix)) (st : script_state)
  : script_run :=
  match input_files with
  | [] => ScriptRun st None
  | input :: rest =>
      match loop_body st input with
      | inl e => ScriptRun st (Some e)
      | inr st' => for_loop rest st'
      end
  end.

(** The body under [if __name__=='__main__']: [input_files] is the result
    of the glob over the input directory, each path with the array stored
    in it; the scaler is created once, before the loop. *)
Definition main (input_files : list (string * matrix)) : script_run :=
  for_loop input_files (ScriptState [] ∅).

End Script.

End DataPrep.

(** ** Training notebook: the estimator parameter dictionaries *)

Module Training.
Import Py.

(** [s3_prefix], stored by the data-preparation notebook. *)
Definition s3_prefix : string := "pytorch-workflow".

(** [hyperparameters] of the Local Mode cell. *)
Definition hyperparameters_local : dict :=
  [("epochs", VInt 5); ("batch_size", VInt 128);
   ("learning_rate", VFloat (1 # 100))].

(** [hyperparameters] as the hosted and the managed-spot cells rebind it. *)
Definition hyperparameters : dict :=
  [("epochs", VInt 30); ("batch_size", VInt 128);
   ("learning_rate", VFloat (1 # 100))].

Definition metric_definitions : value :=
  VList [VDict [("Name", VStr "loss"); ("Regex", VStr " loss: ([0-9\.]+)")];
         VDict [("Name", VStr "val_loss");
                ("Regex", VStr "Test MSE: ([0-9\.]+)")]].

(** [role] is restored from the store of the first notebook. *)
Definition local_estimator_parameters (role : string) : dict :=
  [("source_dir", VStr "pytorch-model/train_model");
   ("entry_point", VStr "train_deploy.py");
   ("train_instance_type", VStr "local");
   ("train_instance_count", VInt 1);
   ("hyperparameters", VDict hyperparameters_local);
   ("role", VStr role);
   ("base_job_name", VStr "pytorch-local-model");
   ("framework_version", VStr "1.5");
   ("py_version", VStr "py3")].

(** [estimator_parameters] of the hosted-training cell. *)
Definition estimator_parameters_hosted (role : string) : dict :=
  [("source_dir", VStr "pytorch-model/train_model");
   ("entry_point", VStr "train_deploy.py");
   ("train_instance_type", VStr "ml.c5.xlarge");
   ("train_instance_count", VInt 1);
   ("hyperparameters", VDict hyperparameters);
   ("role", VStr role);
   ("base_job_name", VStr "pytorch-hosted-model");
   ("framework_version", VStr "1.5.1");
   ("py_version", VStr "py3");
   ("metric_definitions", metric_definitions)].

(** [estimator_parameters] of the managed-spot cell, which rebinds the
    name of the hosted one. *)
Definition estimator_parameters_spot (role bucket : string) : dict :=
  [("source_dir", VStr "pytorch-model/train_model");
   ("entry_point", VStr "train_deploy.py");
   ("train_instance_type", VStr "ml.c5.xlarge");
   ("train_instance_count", VInt 1);
   ("hyperparameters", VDict hyperparameters);
   ("role", VStr role);
   ("base_job_name", VStr "pytorch-hosted-model");
   ("framework_version", VStr "1.5.1");
   ("py_version", VStr "py3");
   ("metric_definitions", metric_definitions);
   ("train_use_spot_instances", VBool true);
   ("train_max_run", VInt 1200);
   ("train_max_wait", VInt 2400);
   ("checkpoint_s3_uri",
    VStr ("s3://" +:+ bucket +:+ "/" +:+ s3_prefix +:+ "/checkpoint"))].

(** The three configurations the notebook builds, in cell order. *)
Definition configurations (role bucket : string) : list dict :=
  [local_estimator_parameters role;
   estimator_parameters_hosted role;
   estimator_parameters_spot role bucket].

(** The precondition on a spot configuration as the notebook's note gives
    it: [train_max_wait] must be greater than or equal to [train_max_run],
    or the SDK answers with an argument error.  A configuration that does
    not ask for spot instances is not checked. *)
Inductive argument_check : Type :=
| ArgumentsAccepted
| ArgumentError.

Definition check_spot_arguments (params : dict) : argument_check :=
  match dict_get "train_use_spot_instances" params with
  | Some (VBool true) =>
      match dict_get "train_max_run" params,
            dict_get "train_max_wait" params with
      | Some (VInt run), Some (VInt wait) =>
          if (wait <? run)%Z then ArgumentError else ArgumentsAccepted
      | _, _ => ArgumentError
      end
  | _ => ArgumentsAccepted
  end.

End Training.

(** ** Orchestration notebook: the chain of steps and the resource names *)

Module Orchestration.

(** The kinds of step the notebook instantiates. *)
Inductive step_kind : Type :=
| ProcessingStep
| TrainingStep
| ModelStep
| EndpointConfigStep
| EndpointStep.

(** A state of the workflow: its id, its kind, the steps whose Python
    objects its constructor call reads, and the state it hands over to. *)
Record step : Type := Step {
  state_id : string;
  kind : step_kind;
  reads : list string;
  next : option string
}.

Definition preprocessing_step : step :=
  Step "Preprocessing" ProcessingStep [] None.

Definition training_step : step :=
  Step "Model Training" TrainingStep [] None.

(** [model=training_step.get_expected_model()] *)
Definition model_step : step :=
  Step "Save Model" ModelStep ["Model Training"] None.

Definition endpoint_config_step : step :=
  Step "Create Model Endpoint Config" EndpointConfigStep [] None.

Definition endpoint_step : step :=
  Step "Create Inference Endpoint" EndpointStep [] None.

(** [steps.Chain]: every step hands over to the one that follows it in
    the list, the last one ends the workflow. *)
Fixpoint Chain (l : list step) : list step :=
  match l with
  | [] => []
  | s :: rest =>
      Step (state_id s) (kind s) (reads s)
           (match rest with
            | [] => None
            | s' :: _ => Some (state_id s')
            end)
      :: Chain rest
  end.

Definition workflow_definition : list step :=
  Chain [preprocessing_step; training_step; model_step;
         endpoint_config_step; endpoint_step].

(** The transition relation of a definition: [a] hands over to [b]. *)
Definition transition (wf : list step) (a b : string) : Prop :=
  ∃ s, s ∈ wf ∧ state_id s = a ∧ next s = Some b.

(** Position of a state id in a definition (its length when absent). *)
Fixpoint position (a : string) (wf : list step) : nat :=
  match wf with
  | [] => 0
  | s :: rest => if String.eqb a (state_id s) then 0 else S (position a rest)
  end.

(** ['BostonHousing-{}-Train'.format(id)] and its two siblings; the
    spelling of the model name is the notebook's. *)
Definition training_job_name (id : string) : string :=
  "BostonHousing-" +:+ id +:+ "-Train".

Definition model_name (id : string) : string :=
  "BostonHousting-" +:+ id +:+ "-Model".

Definition endpoint_name (id : string) : string :=
  "BostonHousing-" +:+ id +:+ "-Endpoint".

End Orchestration.



(** ** Deployment notebook: endpoints, monitoring schedule, clean up *)

Module Deploy.

(** Where a predictor's endpoint lives: in the local container runtime or
    on the managed platform. *)
Inductive session : Type :=
| LocalSession
| ManagedSession.

(** A predictor object: the session it talks to and its endpoint name. *)
Record predictor : Type := Predictor {
  sagemaker_session : session;
  endpoint : string
}.

(** The resources that exist, and the notebook's predictor variables. *)
Record platform : Type := Platform {
  local_endpoints : gset string;
  endpoints : gset string;
  schedules : gset string;
  variables : gmap string predictor
}.

(** The statements of the notebook that create, bind or delete a serving
    resource. *)
Inductive stmt : Type :=
| DeployLocal (var name : string)
    (* var = model.deploy(..., instance_type='local') *)
| DeployHosted (var name : string)
    (* var = model.deploy(..., endpoint_name=name) *)
| EndpointFromProductionVariants (name : string)
    (* sess.endpoint_from_production_variants(name=name, ...) *)
| RealTimePredictor (var name : string)
    (* var = RealTimePredictor(endpoint=name, ...) *)
| CreateMonitoringSchedule (name : string)
    (* my_default_monitor.create_monitoring_schedule(name, ...) *)
| DeleteEndpoint (var : string)
    (* var.delete_endpoint(...) *)
| DeleteMonitoringSchedule (name : string).
    (* !aws sagemaker delete-monitoring-schedule --monitoring-schedule-name *)

(** One statement; [None] where Python raises [NameError] for a variable
    that is not bound. *)
Definition exec (s : stmt) (p : platform) : option platform :=
  match s with
  | DeployLocal var name =>
      Some (Platform ({[name]} ∪ local_endpoints p) (endpoints p)
                     (schedules p)
                     (<[var := Predictor LocalSession name]> (variables p)))
  | DeployHosted var name =>
      Some (Platform (local_endpoints p) ({[name]} ∪ endpoints p)
                     (schedules p)
                     (<[var := Predictor ManagedSession name]> (variables p)))
  | EndpointFromProductionVariants name =>
      Some (Platform (local_endpoints p) ({[name]} ∪ endpoints p)
                     (schedules p) (variables p))
  | RealTimePredictor var name =>
      Some (Platform (local_endpoints p) (endpoints p) (schedules p)
                     (<[var := Predictor ManagedSession name]> (variables p)))
  | CreateMonitoringSchedule name =>
      Some (Platform (local_endpoints p) (endpoints p)
                     ({[name]} ∪ schedules p) (variables p))
  | DeleteEndpoint var =>
      match variables p !! var with
      | Some (Predictor LocalSession name) =>
          Some (Platform (local_endpoints p ∖ {[name]}) (endpoints p)
                         (schedules p) (variables p))
      | Some (Predictor ManagedSession name) =>
          Some (Platform (local_endpoints p) (endpoints p ∖ {[name]})
                         (schedules p) (variables p))
      | None => None
      end
  | DeleteMonitoringSchedule name =>
      Some (Platform (local_endpoints p) (endpoints p)
                     (schedules p ∖ {[name]}) (variables p))
  end.

Fixpoint run (ss : list stmt) (p : platform) : option platform :=
  match ss with
  | [] => Some p
  | s :: rest =>
      match exec s p with
      | Some p' => run rest p'
      | None => None
      end
  end.

(** The cells before the Clean Up section, in order.  [local_name] is the
    name the SDK generates for the Local Mode endpoint. *)
Definition before_clean_up (local_name : string) : list stmt :=
  [ DeployLocal "local_predictor" local_name;
    DeleteEndpoint "local_predictor";
    DeployHosted "predictor" "pytorch-housing";
    DeployHosted "tuning_predictor" "pytorch-housing-auto";
    DeployHosted "mme_predictor" "mme-pytorch";
    EndpointFromProductionVariants "pytorch-production-variants";
    CreateMonitoringSchedule "pytorch-boston-housing-model-monitor-schedule";
    RealTimePredictor "prodvar_predictor" "pytorch-production-variants";
    RealTimePredictor "predictor" "pytorch-housing" ].

(** The Clean Up cell; its last line is the comment
    [# Manually delete production variant endpoint (for now)]. *)
Definition clean_up : list stmt :=
  [ DeleteEndpoint "predictor";
    DeleteEndpoint "tuning_predictor";
    DeleteEndpoint "mme_predictor";
    DeleteMonitoringSchedule "pytorch-boston-housing-model-monitor-schedule" ].

Definition notebook (local_name : string) : list stmt :=
  before_clean_up local_name ++ clean_up.

(** The managed endpoints the notebook creates. *)
Definition created_endpoints : list string :=
  ["pytorch-housing"; "pytorch-housing-auto"; "mme-pytorch";
   "pytorch-production-variants"].

(** Everything torn down: none of the created endpoints and no monitoring
    schedule of the notebook is left. *)
Definition torn_down (p : platform) : Prop :=
  Forall (λ name, name ∉ endpoints p) created_endpoints ∧
  "pytorch-boston-housing-model-monitor-schedule" ∉ schedules p.

(** A platform on which nothing exists and no variable is bound. *)
Definition fresh : platform := Platform ∅ ∅ ∅ ∅.

End Deploy.

(** ** The local serving test *)

Module Serving.

Inductive method : Type :=
| GET
| POST.

Record request : Type := Request {
  meth : method;
  url : string
}.

Record response : Type := Response {
  status : Z;
  body : string
}.

Definition base_url : string := "http://localhost:8080".

(** Modelled from the spec: the handler the serving container runs for the
    health check is not among the sources (only the notebook that calls it
    is); the spec has "the health-check endpoint returns HTTP 200", the
    notebook "It must return a code 200". *)
Definition ping : response := Response 200 "".

Definition is_health_check (r : request) : bool :=
  match meth r with
  | GET => String.eqb (url r) (base_url +:+ "/ping")
  | POST => false
  end.

(** The container: the health check is answered by [ping], everything else
    by the container's other handlers, which are left open. *)
Definition serve (other : request → response) (r : request) : response :=
  if is_health_check r then ping else other r.

(** [request.urlopen(url)] sends a GET and returns the response; a status
    of 400 or more is raised as [HTTPError], given here as [None]. *)
Definition urlopen (server : request → response) (u : string)
  : option response :=
  let resp := server (Request GET u) in
  if (status resp <? 400)%Z then Some resp else None.

(** The cell [resp = request.urlopen("%s/ping" % base_url)] followed by
    [resp.getcode()]. *)
Definition ping_cell (server : request → response) : option Z :=
  status <$> urlopen server (base_url +:+ "/ping").

End Serving.


(** ** The notebooks as sequences of SDK calls *)

Module Cells.

(** An exception: its class, and whether it is an instance of
    [ValueError] (itself or a subclass), which is what an
    [except ValueError] clause tests. *)
Record exn : Type := Exn {
  exn_class : string;
  is_ValueError : bool
}.

(** What a call does to the world outside the notebook. *)
Inductive outcome (W : Type) : Type :=
| Returned (w : W)
| Raised (e : exn) (w : W).
Arguments Returned {W}.
Arguments Raised {W}.


(** A statement of a cell, as far as calls into the SDKs go: a call, a
    call inside a loop or comprehension that runs [n] times, or
    [try: body except ValueError: handler]. *)
Inductive stmt : Type :=
| Call (f : string)
| Repeat (n : nat) (f : string)
| TryExceptValueError (body handler : list string).

Definition cell : Type := list stmt.

Section Run.
Context {W : Type}.
Variable sdk : string → W → outcome W.




End Run.

(** *** connect-to-snowflake.ipynb *)


(** *** The data-preparation notebook *)



(** *** The training notebook *)


(** *** The orchestration notebook *)


(** *** The local serving test; [predict] runs once per payload *)


(** *** pytorch-workflow-3-deploy.ipynb; [n_test] is [len(x_test)] *)






End Cells.


(** ** Dictionary updates across notebooks *)

Module PyDict.
Import Py.

(** [k in d] *)
Definition dict_contains (k : string) (d : dict) : bool :=
  existsb (λ e, String.eqb k e.1) d.

(** [d.__delitem__(k)]: [None] where Python raises [KeyError]. *)
Definition dict_delitem (k : string) (d : dict) : option dict :=
  if dict_contains k d
  then Some (List.filter (λ e, negb (String.eqb k e.1)) d)
  else None.

(** [d[k] = v]: an existing key keeps its place, a new key goes last. *)
Fixpoint dict_setitem (k : string) (v : value) (d : dict) : dict :=
  match d with
  | [] => [(k, v)]
  | (k', v') :: d' =>
      if String.eqb k k' then (k, v) :: d'
      else (k', v') :: dict_setitem k v d'
  end.

(** The last cell of the training notebook, before [%store]:
    [if 'estimator' in tuner_parameters:
       tuner_parameters.__delitem__('estimator')]. *)
Definition remove_estimator (tuner_parameters : dict) : option dict :=
  if dict_contains "estimator" tuner_parameters
  then dict_delitem "estimator" tuner_parameters
  else Some tuner_parameters.

(** The deployment notebook, after [%store -r]:
    [tuner_parameters['estimator'] = estimator]. *)
Definition restore_estimator (estimator : value) (tuner_parameters : dict)
  : dict :=
  dict_setitem "estimator" estimator tuner_parameters.

End PyDict.

(** ** The connection cell of the warehouse notebook *)

Module Connect.
Import Py.

Inductive exception : Type :=
| NameError (name : string)
| KeyError (key : string).

(** The keyword arguments of [snowflake.connector.connect]. *)
Record connect_args : Type := ConnectArgs {
  user : value;
  password : value;
  account : value;
  warehouse : value;
  database : value;
  schema : value
}.

(** [d[k]] *)
Definition subscript (d : dict) (k : string) : exception + value :=
  match dict_get k d with
  | Some v => inr v
  | None => inl (KeyError k)
  end.

Definition bind {A B : Type} (m : exception + A) (f : A → exception + B)
  : exception + B :=
  match m with
  | inl e => inl e
  | inr a => f a
  end.

(** The subscripts of the call, in the order the arguments are written. *)
Definition keys : list string :=
  ["/SNOWFLAKE/USER_ID"; "/SNOWFLAKE/PASSWORD"; "/SNOWFLAKE/ACCOUNT_ID";
   "/SNOWFLAKE/WAREHOUSE"; "/SNOWFLAKE/DATABASE"; "/SNOWFLAKE/SCHEMA"].

(** The arguments the cell passes to [connect].  [param_values] is the
    binding of that name when the cell runs: the cell's own dictionary
    literal sits inside a string literal, so the cell binds nothing and
    the name is unbound ([None]) unless something else has defined it. *)
Definition connect_cell (param_values : option dict)
  : exception + connect_args :=
  match param_values with
  | None => inl (NameError "param_values")
  | Some d =>
      bind (subscript d "/SNOWFLAKE/USER_ID") (λ user,
      bind (subscript d "/SNOWFLAKE/PASSWORD") (λ password,
      bind (subscript d "/SNOWFLAKE/ACCOUNT_ID") (λ account,
      bind (subscript d "/SNOWFLAKE/WAREHOUSE") (λ warehouse,
      bind (subscript d "/SNOWFLAKE/DATABASE") (λ database,
      bind (subscript d "/SNOWFLAKE/SCHEMA") (λ schema,
      inr (ConnectArgs user password account warehouse database schema)))))))
  end.

(** The mutation cell run once per draw, on the DataFrame as it stands. *)
Definition rerun_mutation (df : Snowflake.DataFrame) (draws : list Z)
  : Snowflake.DataFrame :=
  fold_left (λ df draw, Snowflake.df_written (Snowflake.notebook df draw))
            draws df.

End Connect.

(** ** Deployment notebook: predictions and captured data *)

Module Inference.
Import DataPrep.

(** [[predict(x_test[i]) for i in range(0, 10)]]: [None] where an index is
    out of range ([IndexError]); the call to the endpoint is taken to
    return. *)
Definition first_ten_predictions {A B : Type} (predict : A → B)
    (x_test : list A) : option (list B) :=
  mapM (λ i, predict <$> x_test !! i) (seq 0 10).

(** The result of [os.walk]: the directories visited, each with its path
    and the names of its files. *)
Definition walk : Type := list (string * list string).

(** The paths the loops open: every file that is not [.DS_Store]. *)
Definition data_files (w : walk) : list string :=
  flat_map (λ '(root, files),
              map (path_join root)
                  (List.filter (λ file, negb (String.eqb file ".DS_Store"))
                               files)) w.

(** How a cell that builds a list of predictions ends. *)
Inductive outcome : Type :=
| NameError
| ParseError
| Predictions (l : list R).

Section Captured.
(** [open(path).readlines()] *)
Variable readlines : string → list string.
(** [float(json.loads(line)['captureData']['endpointOutput']['data'])],
    [None] where one of the steps raises. *)
Variable parse : string → option R.

(** [for root, dirs, files in os.walk(...): for file in files:
       if file != '.DS_Store': ... requests_predictions_file = readlines()]
    on the binding of [requests_predictions_file] ([None]: unbound). *)
Definition read_captures (w : walk)
    (requests_predictions_file : option (list string))
  : option (list string) :=
  fold_left
    (λ var '(root, files),
       fold_left (λ var file,
                    if String.eqb file ".DS_Store" then var
                    else Some (readlines (path_join root file)))
                 files var)
    w requests_predictions_file.

(** [for i in range(len(requests_predictions_file)): append(float(...))] *)
Definition predictions_of (requests_predictions_file : option (list string))
  : outcome :=
  match requests_predictions_file with
  | None => NameError
  | Some lines =>
      match mapM parse lines with
      | Some l => Predictions l
      | None => ParseError
      end
  end.

(** The Variant1 cell followed by the Variant2 cell: both use the one name
    [requests_predictions_file]. *)
Definition variant_cells (w1 w2 : walk)
    (requests_predictions_file : option (list string))
  : outcome * outcome :=
  let var1 := read_captures w1 requests_predictions_file in
  let var2 := read_captures w2 var1 in
  (predictions_of var1, predictions_of var2).

End Captured.

(** [[ground_truth[i] - predictions[i] for i in range(len(ground_truth))]] *)
Definition errors (ground_truth predictions : list R) : option (list R) :=
  mapM (λ i, g ← ground_truth !! i; p ← predictions !! i; Some (g - p)%R)
       (seq 0 (length ground_truth)).

(** [list(zip(ground_truth, predictions))[0:10]] *)
Definition first_pairs (ground_truth predictions : list R) : list (R * R) :=
  take 10 (zip ground_truth predictions).

End Inference.

(** ** Orchestration notebook: one execution of the workflow *)

Module Execution.
Import Orchestration.

(** The resources of the platform the workflow touches; an endpoint is
    kept with the name of its endpoint configuration. *)
Record platform : Type := Platform {
  processing_jobs : gset string;
  training_jobs : gset string;
  models : gset string;
  endpoint_configs : gset string;
  endpoints : gmap string string
}.

(** ["pytorch-2-stepfunctions-processing-{}".format(strftime(...))]: the
    name is made once, when the cell that defines the step runs, and is
    part of the definition. *)
Definition sf_processing_job_name (timestamp : string) : string :=
  "pytorch-2-stepfunctions-processing-" +:+ timestamp.

(** The [inputs] of [workflow.execute], by the keys of [execution_input]. *)
Record inputs : Type := Inputs {
  TrainingJobName : string;
  ModelName : string;
  EndpointName : string
}.

Inductive failure : Type :=
| NameInUse (name : string)
| NotFound (name : string).

(** What a state does when it runs.  A name that exists already makes the
    creation fail (the notebook: "If these names are not unique the
    execution will fail"); an endpoint configuration needs its model and
    an endpoint its configuration.  The names are those the notebook gives
    the steps: the processing job has the fixed [job_name] of the
    definition, the others come from the inputs of the execution, the
    configuration being named after the model. *)
Definition run_state (job_name : string) (k : step_kind) (i : inputs)
    (p : platform) : failure + platform :=
  match k with
  | ProcessingStep =>
      if decide (job_name ∈ processing_jobs p)
      then inl (NameInUse job_name)
      else inr (Platform ({[job_name]} ∪ processing_jobs p) (training_jobs p)
                         (models p) (endpoint_configs p) (endpoints p))
  | TrainingStep =>
      if decide (TrainingJobName i ∈ training_jobs p)
      then inl (NameInUse (TrainingJobName i))
      else inr (Platform (processing_jobs p)
                         ({[TrainingJobName i]} ∪ training_jobs p) (models p)
                         (endpoint_configs p) (endpoints p))
  | ModelStep =>
      if decide (ModelName i ∈ models p)
      then inl (NameInUse (ModelName i))
      else inr (Platform (processing_jobs p) (training_jobs p)
                         ({[ModelName i]} ∪ models p)
                         (endpoint_configs p) (endpoints p))
  | EndpointConfigStep =>
      if decide (ModelName i ∈ endpoint_configs p)
      then inl (NameInUse (ModelName i))
      else if decide (ModelName i ∈ models p)
      then inr (Platform (processing_jobs p) (training_jobs p) (models p)
                         ({[ModelName i]} ∪ endpoint_configs p) (endpoints p))
      else inl (NotFound (ModelName i))
  | EndpointStep =>
      if decide (is_Some (endpoints p !! EndpointName i))
      then inl (NameInUse (EndpointName i))
      else if decide (ModelName i ∈ endpoint_configs p)
      then inr (Platform (processing_jobs p) (training_jobs p) (models p)
                         (endpoint_configs p)
                         (<[EndpointName i := ModelName i]> (endpoints p)))
      else inl (NotFound (ModelName i))
  end.

(** The states run in the order of the chain; a failure ends the run. *)
Fixpoint run_states (job_name : string) (ks : list step_kind) (i : inputs)
    (p : platform) : failure + platform :=
  match ks with
  | [] => inr p
  | k :: rest =>
      match run_state job_name k i p with
      | inl e => inl e
      | inr p' => run_states job_name rest i p'
      end
  end.

(** [workflow.execute(inputs=...)] with the three names made from [id], on
    the definition whose processing step was given the name of
    [timestamp]. *)
Definition execute (timestamp id : string) (p : platform)
  : failure + platform :=
  run_states (sf_processing_job_name timestamp)
             (map kind workflow_definition)
             (Inputs (training_job_name id) (model_name id) (endpoint_name id))
             p.

(** [PyTorchPredictor(endpoint_name).delete_endpoint(
      delete_endpoint_config=True)] *)
Definition delete_endpoint (name : string) (p : platform)
  : failure + platform :=
  match endpoints p !! name with
  | Some config =>
      inr (Platform (processing_jobs p) (training_jobs p) (models p)
                    (endpoint_configs p ∖ {[config]})
                    (delete name (endpoints p)))
  | None => inl (NotFound name)
  end.

(** The platform after an execution that went through: the five resources
    added. *)
Definition executed (timestamp id : string) (p : platform) : platform :=
  Platform ({[sf_processing_job_name timestamp]} ∪ processing_jobs p)
           ({[training_job_name id]} ∪ training_jobs p)
           ({[model_name id]} ∪ models p)
           ({[model_name id]} ∪ endpoint_configs p)
           (<[endpoint_name id := model_name id]> (endpoints p)).

(** The names an execution creates are not taken on [p]. *)
Definition names_free (timestamp id : string) (p : platform) : Prop :=
  (sf_processing_job_name timestamp ∉ processing_jobs p) ∧
  (training_job_name id ∉ training_jobs p) ∧
  (model_name id ∉ models p) ∧
  (model_name id ∉ endpoint_configs p) ∧
  endpoints p !! endpoint_name id = None.

End Execution.


(** ** The workflow's own name and the ends of names *)

Module Names.

(** [name='MyTrainingRoutine{}'.format(id)] *)
Definition workflow_name (id : string) : string :=
  "MyTrainingRoutine" +:+ id.

(** [s[-1]], where there is one. *)
Fixpoint last_char (s : string) : option Ascii.ascii :=
  match s with
  | EmptyString => None
  | String c EmptyString => Some c
  | String _ rest => last_char rest
  end.

End Names.


(** ** Where the notebooks keep the data *)

Module Storage.
Import DataPrep.

(** ['s3://{}/{}/data'.format(bucket, s3_prefix)], in the data-preparation
    and in the orchestration notebook. *)
Definition output_destination (bucket : string) : string :=
  "s3://" +:+ bucket +:+ "/" +:+ Training.s3_prefix +:+ "/data".

(** ['{}/train'.format(output_destination)] and its sibling: the
    destinations of the two [ProcessingOutput]s. *)
Definition train_destination (bucket : string) : string :=
  output_destination bucket +:+ "/train".

Definition test_destination (bucket : string) : string :=
  output_destination bucket +:+ "/test".

(** ['{}/train/x_train.npy'.format(output_destination)] and its sibling:
    what [aws s3 cp] fetches after the job. *)
Definition train_in_s3 (bucket : string) : string :=
  output_destination bucket +:+ "/train/x_train.npy".

Definition test_in_s3 (bucket : string) : string :=
  output_destination bucket +:+ "/test/x_test.npy".

(** ['{}/data/train'.format(s3_prefix)] and its sibling, in the training
    notebook. *)
Definition traindata_s3_prefix : string :=
  Training.s3_prefix +:+ "/data/train".

Definition testdata_s3_prefix : string :=
  Training.s3_prefix +:+ "/data/test".

(** [sess.upload_data(path, key_prefix=...)] returns the URI of the prefix
    in the default bucket of the session. *)
Definition upload_data (bucket key_prefix : string) : string :=
  "s3://" +:+ bucket +:+ "/" +:+ key_prefix.

Definition train_s3 (bucket : string) : string :=
  upload_data bucket traindata_s3_prefix.

Definition test_s3 (bucket : string) : string :=
  upload_data bucket testdata_s3_prefix.

(** [s] without its prefix [p], where it has that prefix. *)
Fixpoint strip_prefix (p s : string) : option string :=
  match p with
  | EmptyString => Some s
  | String c p' =>
      match s with
      | EmptyString => None
      | String d s' => if Ascii.eqb c d then strip_prefix p' s' else None
      end
  end.

(** [ProcessingOutput(source=..., destination=...)]: when the job ends, a
    file [source/name] of the container is uploaded as
    [destination/name]; a path outside [source] is not uploaded. *)
Definition uploaded_as (source destination path : string) : option string :=
  (λ name, destination +:+ "/" +:+ name) <$> strip_prefix (source +:+ "/") path.

(** What the script finds in /opt/ml/processing/input: the two arrays the
    notebook saved under data/raw and uploaded, in the order the glob
    lists them. *)
Definition processing_input {B : Type} (x : matrix) (y : list B)
  : list (string * matrix) :=
  let s := train_test_split x y in
  [("/opt/ml/processing/input/x_train.npy", x_train s);
   ("/opt/ml/processing/input/x_test.npy", x_test s)].

End Storage.


(* ===================================================================== *)
(** * Part II: theorems                                                    *)
(* ===================================================================== *)

(** ** Training configurations *)

Section TrainingFacts.
Import Py Training.

(** C7: each of the three estimator parameter dictionaries the training
    notebook builds (Local Mode, hosted, managed spot) holds, under the key
    [hyperparameters], a dictionary that is not empty. *)
Theorem hyperparameters_nonempty (role bucket : string) :
  Forall (λ params, ∃ h, dict_get "hyperparameters" params = Some (VDict h)
                         ∧ h ≠ []
                         ∧ is_nonempty_dict (VDict h) = true)
         [local_estimator_parameters role;
          estimator_parameters_hosted role;
          estimator_parameters_spot role bucket]
  ∧ configurations role bucket =
      [local_estimator_parameters role;
       estimator_parameters_hosted role;
       estimator_parameters_spot role bucket].
Proof.
  split; [| reflexivity].
  repeat constructor.
  - exists hyperparameters_local. by repeat split.
  - exists hyperparameters. by repeat split.
  - exists hyperparameters. by repeat split.
Qed.

(** C9: the managed-spot configuration sets [train_max_run] to 1200 and
    [train_max_wait] to 2400 seconds, so the wait bound is at least the run
    bound and the argument check does not take its error branch. *)
Theorem spot_wait_covers_run (role bucket : string) :
  let params := estimator_parameters_spot role bucket in
  dict_get "train_max_run" params = Some (VInt 1200) ∧
  dict_get "train_max_wait" params = Some (VInt 2400) ∧
  (1200 <= 2400)%Z ∧
  check_spot_arguments params = ArgumentsAccepted ∧
  check_spot_arguments params ≠ ArgumentError.
Proof. repeat split; try reflexivity; try lia; discriminate. Qed.

End TrainingFacts.

(** ** Orchestration: the chain *)

Section ChainFacts.
Import Orchestration.

Lemma Chain_state_ids (l : list step) :
  map state_id (Chain l) = map state_id l.
Proof. induction l as [| s l IH]; simpl; [done | by rewrite IH]. Qed.

Lemma position_Chain (a : string) (l : list step) :
  position a (Chain l) = position a l.
Proof.
  induction l as [| s l IH]; simpl; [done |].
  destruct (String.eqb a (state_id s)); [done | by rewrite IH].
Qed.

Lemma position_absent (a : string) (l : list step) :
  a ∉ map state_id l → position a l = length l.
Proof.
  induction l as [| s l IH]; simpl; [done |].
  intros Hnot. destruct (String.eqb_spec a (state_id s)) as [-> | Hne].
  - exfalso. apply Hnot. apply elem_of_cons. by left.
  - rewrite IH; [done |]. intros H. apply Hnot. apply elem_of_cons. by right.
Qed.

(** In a chain without repeated ids a transition leads from a state to the
    one right after it. *)
Lemma Chain_transition_next (l : list step) (a b : string) :
  NoDup (map state_id l) →
  transition (Chain l) a b →
  position b l = S (position a l) ∧ position b l < length l.
Proof.
  induction l as [| s l IH]; intros Hnd (t & Hin & Ha & Hb).
  - by apply elem_of_nil in Hin.
  - simpl in Hin. apply NoDup_cons in Hnd as [Hfresh Hnd].
    apply elem_of_cons in Hin as [-> | Hin].
    + simpl in Ha, Hb. subst a. destruct l as [| s' l]; [done |].
      injection Hb as <-. simpl. rewrite String.eqb_refl.
      destruct (String.eqb_spec (state_id s') (state_id s)) as [Heq | _].
      * exfalso. apply Hfresh. rewrite <- Heq. simpl. apply elem_of_cons. by left.
      * rewrite String.eqb_refl. lia.
    + destruct (IH Hnd) as [Hpos Hlt]; [by exists t |].
      assert (a ∈ map state_id l) as Hal.
      { rewrite <- Chain_state_ids, <- Ha.
        apply list_elem_of_In, in_map, list_elem_of_In, Hin. }
      assert (b ∈ map state_id l) as Hbl.
      { destruct (decide (b ∈ map state_id l)) as [| Hnot]; [done |].
        apply position_absent in Hnot. lia. }
      simpl.
      destruct (String.eqb_spec a (state_id s)) as [-> | _]; [done |].
      destruct (String.eqb_spec b (state_id s)) as [-> | _]; [done |].
      lia.
Qed.

(** Any chain of steps with pairwise different ids is acyclic: following
    transitions strictly increases the position, so no state reaches
    itself. *)
Theorem Chain_acyclic (l : list step) :
  NoDup (map state_id l) →
  ∀ a b, tc (transition (Chain l)) a b → position a l < position b l.
Proof.
  intros Hnd a b. induction 1 as [a b H | a b c H _ IH].
  - apply Chain_transition_next in H as [H _]; [lia | done].
  - apply Chain_transition_next in H as [H _]; [lia | done].
Qed.

(** C6: the workflow definition is the chain of the five steps
    Preprocessing, Model Training, Save Model, Create Model Endpoint Config,
    Create Inference Endpoint, in this order; each hands over to the one
    after it and the last to none; no state id occurs twice; every
    transition leads to the next position and every object a step reads
    belongs to an earlier step, so no state reaches itself. *)
Theorem workflow_definition_linear :
  map state_id workflow_definition =
    ["Preprocessing"; "Model Training"; "Save Model";
     "Create Model Endpoint Config"; "Create Inference Endpoint"] ∧
  map next workflow_definition =
    [Some "Model Training"; Some "Save Model";
     Some "Create Model Endpoint Config"; Some "Create Inference Endpoint";
     None] ∧
  length workflow_definition = 5 ∧
  NoDup (map state_id workflow_definition) ∧
  (∀ a b, transition workflow_definition a b →
          position b workflow_definition
          = S (position a workflow_definition)) ∧
  (∀ a, ¬ tc (transition workflow_definition) a a) ∧
  Forall (λ s, Forall (λ r, position r workflow_definition
                            < position (state_id s) workflow_definition)
                      (reads s))
         workflow_definition.
Proof.
  assert (NoDup (map state_id
            [preprocessing_step; training_step; model_step;
             endpoint_config_step; endpoint_step])) as Hnd.
  { apply (bool_decide_unpack _). by vm_compute. }
  split; [reflexivity |]. split; [reflexivity |]. split; [reflexivity |].
  split; [unfold workflow_definition; by rewrite Chain_state_ids |].
  split.
  { intros a b H. unfold workflow_definition in *.
    rewrite !position_Chain. by apply Chain_transition_next in H as [H _]. }
  split.
  { intros a H. unfold workflow_definition in H.
    apply Chain_acyclic in H; [lia | done]. }
  cbn. repeat constructor.
Qed.

End ChainFacts.

(** ** Orchestration: the resource names *)

Section NameFacts.
Import Orchestration.

Lemma length_append (s1 s2 : string) :
  String.length (s1 +:+ s2) = String.length s1 + String.length s2.
Proof. induction s1 as [| c s1 IH]; simpl; [reflexivity | by f_equal]. Qed.

Lemma append_cancel_r (s1 s2 suffix : string) :
  s1 +:+ suffix = s2 +:+ suffix → s1 = s2.
Proof.
  revert s2. induction s1 as [| c s1 IH]; intros [| d s2] H.
  - reflexivity.
  - exfalso. apply (f_equal String.length) in H.
    rewrite !length_append in H. simpl in H. lia.
  - exfalso. apply (f_equal String.length) in H.
    rewrite !length_append in H. simpl in H. lia.
  - simpl in H. injection H as -> H. f_equal. by apply IH.
Qed.

Lemma append_suffix_differs (s t1 t2 : string) :
  t1 ≠ t2 → s +:+ t1 ≠ s +:+ t2.
Proof. intros Hne H. apply Hne. by apply (inj (String.append s)). Qed.

(** C10: for every id the training-job, model and endpoint names are
    pairwise distinct, and each of the three names determines the id it was
    generated from, so two distinct ids give distinct names of each kind. *)
Theorem names_collision_free :
  (∀ id, training_job_name id ≠ model_name id ∧
         training_job_name id ≠ endpoint_name id ∧
         model_name id ≠ endpoint_name id) ∧
  (∀ id1 id2, id1 ≠ id2 →
         training_job_name id1 ≠ training_job_name id2 ∧
         model_name id1 ≠ model_name id2 ∧
         endpoint_name id1 ≠ endpoint_name id2).
Proof.
  split.
  - intros id. unfold training_job_name, model_name, endpoint_name.
    repeat split.
    + intros H. discriminate.
    + intros H. repeat (injection H as H). revert H.
      apply (append_suffix_differs id "-Train" "-Endpoint"). discriminate.
    + intros H. discriminate.
  - intros id1 id2 Hne.
    unfold training_job_name, model_name, endpoint_name.
    repeat split; intros H; apply Hne;
      repeat (injection H as H).
    + exact (append_cancel_r id1 id2 "-Train" H).
    + exact (append_cancel_r id1 id2 "-Model" H).
    + exact (append_cancel_r id1 id2 "-Endpoint" H).
Qed.

End NameFacts.

(** ** Data preparation: the split *)

Section SplitFacts.
Import DataPrep.
Context {A B : Type}.

Lemma training_index_le (n : nat) : training_index n ≤ n.
Proof.
  unfold training_index.
  pose proof (Nat.Div0.mul_div_le (8 * n) 10). lia.
Qed.

(** [training_index n] is the floor of [0.8 * n]. *)
Lemma training_index_floor (n : nat) :
  (INR (training_index n) <= 0.8 * INR n < INR (training_index n) + 1)%R.
Proof.
  unfold training_index.
  pose proof (Nat.Div0.mul_div_le (8 * n) 10) as Hlo.
  pose proof (Nat.mul_succ_div_gt (8 * n) 10 ltac:(lia)) as Hhi.
  set (k := 8 * n / 10) in *.
  apply le_INR in Hlo. apply lt_INR in Hhi.
  rewrite !mult_INR in Hlo. rewrite !mult_INR, (S_INR k) in Hhi.
  assert (INR 10 = 10%R) as H10 by (simpl; lra).
  assert (INR 8 = 8%R) as H8 by (simpl; lra).
  rewrite H10, H8 in *. split; lra.
Qed.

(** C5: for a dataset of [n] rows the split takes the first
    [floor(0.8 * n)] rows of the feature matrix and of the label vector as
    the training slices and the remaining [n - floor(0.8 * n)] rows as the
    test slices; a row lies in exactly one slice, and the training slice
    followed by the test slice is the original array. *)
Theorem split_partitions (x : list A) (y : list B) :
  length y = length x →
  let n := length x in
  let k := training_index n in
  let s := train_test_split x y in
  (INR k <= 0.8 * INR n < INR k + 1)%R ∧
  x_train s = take k x ∧ x_test s = drop k x ∧
  y_train s = take k y ∧ y_test s = drop k y ∧
  length (x_train s) = k ∧ length (x_test s) = n - k ∧
  length (y_train s) = k ∧ length (y_test s) = n - k ∧
  x_train s ++ x_test s = x ∧ y_train s ++ y_test s = y ∧
  (∀ i, i < k → x_train s !! i = x !! i ∧ y_train s !! i = y !! i) ∧
  (∀ i, x_test s !! i = x !! (k + i) ∧ y_test s !! i = y !! (k + i)).
Proof.
  intros Hlen n k s.
  pose proof (training_index_le n) as Hk. fold k in Hk.
  split; [apply training_index_floor |].
  repeat split; subst s; unfold train_test_split;
    cbn [x_train x_test y_train y_test]; fold n; fold k.
  - rewrite length_take. lia.
  - rewrite length_drop. lia.
  - rewrite length_take. lia.
  - rewrite length_drop. lia.
  - apply take_drop.
  - apply take_drop.
  - by apply lookup_take_lt.
  - by apply lookup_take_lt.
  - apply lookup_drop.
  - apply lookup_drop.
Qed.

End SplitFacts.

(** The split of five rows: four go to training, one to test. *)
Lemma split_partitions_witness :
  length [10; 20; 30; 40; 50] = length [1; 2; 3; 4; 5] ∧
  DataPrep.x_train (DataPrep.train_test_split [1; 2; 3; 4; 5]
                                              [10; 20; 30; 40; 50])
  ++ DataPrep.x_test (DataPrep.train_test_split [1; 2; 3; 4; 5]
                                                [10; 20; 30; 40; 50])
  = [1; 2; 3; 4; 5].
Proof.
  split; [reflexivity |].
  apply (split_partitions [1; 2; 3; 4; 5] [10; 20; 30; 40; 50]).
  reflexivity.
Defined.

(** The dataset of the notebook has 506 rows: 404 go to training. *)
Example split_of_boston :
  DataPrep.training_index 506 = 404 ∧
  DataPrep.training_index_float 506 = 404%Z.
Proof. split; [reflexivity | by vm_compute]. Qed.

(** The rounded binary64 product gives the same index as the exact one for
    every row count up to 5000. *)
Example training_index_float_agrees :
  forallb (λ n, (DataPrep.training_index_float n
                 =? Z.of_nat (DataPrep.training_index n))%Z)
          (seq 0 (50 * 100 + 1)) = true.
Proof. by vm_compute. Qed.

(** ** Data preparation: the script *)

Section ScriptFacts.
Import DataPrep.

Lemma prefix_spec (n h : string) :
  String.prefix n h = true ↔ ∃ post, h = n +:+ post.
Proof.
  revert h. induction n as [| c n IH]; intros h.
  - split; [intros _; exists h; reflexivity | intros _; by destruct h].
  - destruct h as [| d h]; simpl.
    + split; [done | intros [post H]; discriminate].
    + destruct (Ascii.ascii_dec c d) as [-> | Hne].
      * rewrite IH. split; intros [post H]; exists post.
        -- by rewrite H.
        -- by injection H.
      * split; [done |]. intros [post H]. injection H as H1 H2. congruence.
Qed.

Lemma contains_unfold (n h : string) :
  contains n h =
  String.prefix n h ||
  match h with EmptyString => false | String _ rest => contains n rest end.
Proof. by destruct h. Qed.

(** [contains] decides the substring relation. *)
Lemma contains_spec (n h : string) :
  contains n h = true ↔ ∃ pre post, h = pre +:+ n +:+ post.
Proof.
  induction h as [| c h IH]; rewrite contains_unfold, orb_true_iff, prefix_spec.
  - split.
    + intros [[post H] | H]; [| done]. by exists "", post.
    + intros (pre & post & H). left.
      destruct pre; [by exists post | discriminate].
  - rewrite IH. split.
    + intros [[post H] | (pre & post & H)].
      * by exists "", post.
      * exists (String c pre), post. simpl. by rewrite H.
    + intros (pre & post & H). destruct pre as [| d pre].
      * left. by exists post.
      * right. exists pre, post. simpl in H. by injection H.
Qed.

Lemma output_path_cases (file : string) :
  output_path file =
  if contains "train" file then "/opt/ml/processing/train/x_train.npy"
  else "/opt/ml/processing/test/x_test.npy".
Proof. unfold output_path. by destruct (contains "train" file). Qed.

Variable standardise : matrix → exception + matrix.

(** What [fit_transform] returns it returns for an array with a row and
    a column, and it is what the library made of that array. *)
Lemma fit_transform_returns (X t : matrix) :
  fit_transform standardise X = inr t →
  X ≠ [] ∧ ncols X ≠ 0 ∧ standardise X = inr t.
Proof.
  unfold fit_transform. intros H.
  destruct (decide (length X = 0)) as [| Hrows]; [discriminate |].
  destruct (decide (ncols X = 0)) as [| Hcols]; [discriminate |].
  repeat split; [| done | done].
  intros ->. by apply Hrows.
Qed.

Lemma fit_transform_no_rows : fit_transform standardise [] = inl ValueError.
Proof. reflexivity. Qed.

Lemma loop_body_returns (st : script_state) (input : string * matrix)
    (t : matrix) :
  fit_transform standardise input.2 = inr t →
  loop_body standardise st input = inr (np_save (output_path input.1) t st).
Proof.
  destruct input as [file raw]. cbn [fst snd]. intros H.
  unfold loop_body, output_path. rewrite H.
  by destruct (contains "train" file).
Qed.

Lemma loop_body_raises (st : script_state) (input : string * matrix)
    (e : exception) :
  fit_transform standardise input.2 = inl e →
  loop_body standardise st input = inl e.
Proof.
  destruct input as [file raw]. cbn [fst snd]. intros H.
  unfold loop_body. by rewrite H.
Qed.

Lemma saved_after_saves (entries : list (string * matrix)) (st : script_state) :
  saved (fold_left (λ st e, np_save e.1 e.2 st) entries st)
  = saved st ++ entries.
Proof.
  revert st. induction entries as [| [path a] entries IH]; intros st; simpl.
  - by rewrite app_nil_r.
  - rewrite IH. simpl. by rewrite <- app_assoc.
Qed.

Lemma disk_after_saves (entries : list (string * matrix)) (st : script_state) :
  disk (fold_left (λ st e, np_save e.1 e.2 st) entries st)
  = fold_left (λ d e, <[e.1 := e.2]> d) entries (disk st).
Proof.
  revert st. induction entries as [| e entries IH]; intros st; simpl.
  - reflexivity.
  - by rewrite IH.
Qed.

(** While [fit_transform] returns, the loop saves and goes on. *)
Lemma for_loop_returns (processed : list (string * matrix))
    (transformed : list matrix) (rest : list (string * matrix))
    (st : script_state) :
  Forall2 (λ input t, fit_transform standardise input.2 = inr t)
          processed transformed →
  for_loop standardise (processed ++ rest) st =
  for_loop standardise rest
    (fold_left (λ st e, np_save e.1 e.2 st)
       (zip_with (λ input t, (output_path input.1, t)) processed transformed)
       st).
Proof.
  intros H. revert st.
  induction H as [| input t processed transformed Ht _ IH]; intros st.
  - reflexivity.
  - cbn [app for_loop zip_with fold_left].
    rewrite (loop_body_returns st input t Ht). apply IH.
Qed.

(** Every list of input files falls into the files [fit_transform]
    returns for and, if there is one, the first file it refuses with what
    comes after it. *)
Lemma inputs_split (input_files : list (string * matrix)) :
  ∃ processed transformed rest,
    input_files = processed ++ rest ∧
    Forall2 (λ input t, fit_transform standardise input.2 = inr t)
            processed transformed ∧
    match rest with
    | [] => True
    | input :: _ => fit_transform standardise input.2 = inl ValueError
    end.
Proof.
  induction input_files as [| input files IH].
  - exists [], [], []. by repeat split.
  - destruct (fit_transform standardise input.2) as [[] | t] eqn:Ht.
    + exists [], [], (input :: files). by repeat split.
    + destruct IH as (processed & transformed & rest & -> & Hall & Hrest).
      exists (input :: processed), (t :: transformed), rest.
      repeat split; [by constructor | done].
Qed.

(** A run over files the library accepts, followed by nothing or by a
    file it refuses. *)
Lemma main_run (processed : list (string * matrix))
    (transformed : list matrix) (rest : list (string * matrix)) :
  Forall2 (λ input t, fit_transform standardise input.2 = inr t)
          processed transformed →
  match rest with
  | [] => True
  | input :: _ => fit_transform standardise input.2 = inl ValueError
  end →
  main standardise (processed ++ rest) =
  ScriptRun
    (fold_left (λ st e, np_save e.1 e.2 st)
       (zip_with (λ input t, (output_path input.1, t)) processed transformed)
       (ScriptState [] ∅))
    (match rest with [] => None | _ :: _ => Some ValueError end).
Proof.
  intros Hall Hrest. unfold main.
  rewrite (for_loop_returns processed transformed rest _ Hall).
  destruct rest as [| input rest]; [reflexivity |].
  cbn [for_loop]. by rewrite (loop_body_raises _ input ValueError Hrest).
Qed.

(** C4: the script takes the input files in the order of the glob.  While
    [fit_transform] returns, the array it returned is saved, for a file
    whose path contains [train] to /opt/ml/processing/train/x_train.npy
    and for every other file to /opt/ml/processing/test/x_test.npy, a
    later save overwriting an earlier one.  At the first file for which
    [fit_transform] raises, the script ends with that [ValueError]: that
    file and the files after it are not saved.  A file without a row or
    without a column is never among those processed. *)
Theorem preprocessing_script (input_files : list (string * matrix)) :
  let run := main standardise input_files in
  ∃ processed transformed rest,
    input_files = processed ++ rest ∧
    Forall2 (λ input t, fit_transform standardise input.2 = inr t)
            processed transformed ∧
    saved (at_exit run) =
      zip_with (λ input t, (output_path input.1, t)) processed transformed ∧
    disk (at_exit run) =
      fold_left (λ d e, <[e.1 := e.2]> d) (saved (at_exit run)) ∅ ∧
    match rest with
    | [] => uncaught run = None
    | input :: _ =>
        fit_transform standardise input.2 = inl ValueError ∧
        uncaught run = Some ValueError
    end ∧
    Forall (λ input, input.2 ≠ [] ∧ ncols input.2 ≠ 0) processed ∧
    Forall (λ input,
        let file := input.1 in
        (contains "train" file = true ↔
           ∃ pre post, file = pre +:+ "train" +:+ post) ∧
        (contains "train" file = true →
           output_path file = "/opt/ml/processing/train/x_train.npy") ∧
        (contains "train" file = false →
           output_path file = "/opt/ml/processing/test/x_test.npy"))
      input_files.
Proof.
  cbv zeta.
  destruct (inputs_split input_files)
    as (processed & transformed & rest & -> & Hall & Hrest).
  exists processed, transformed, rest.
  rewrite (main_run processed transformed rest Hall Hrest).
  cbn [at_exit uncaught]. rewrite saved_after_saves, disk_after_saves.
  cbn [saved disk app].
  repeat split; try done.
  - by destruct rest.
  - clear Hrest. induction Hall as [| input t ? ? Ht _ IH]; constructor.
    + apply fit_transform_returns in Ht as (? & ? & _). by split.
    + exact IH.
  - apply Forall_forall. intros [file raw] _. cbv zeta. cbn [fst].
    split; [apply contains_spec |].
    split; intros H; by rewrite output_path_cases, H.
Qed.

End ScriptFacts.

(** A file holding an array without rows ends the script before anything
    is saved for it, whatever the library does with other arrays; a file
    listed after it is not reached. *)
Lemma zero_row_file_stops_script :
  let x_train : string * DataPrep.matrix :=
    ("/opt/ml/processing/input/x_train.npy", []) in
  let x_test : string * DataPrep.matrix :=
    ("/opt/ml/processing/input/x_test.npy", [[PrimFloat.one]]) in
  (∀ standardise,
     DataPrep.main standardise [x_train] =
     DataPrep.ScriptRun (DataPrep.ScriptState [] ∅)
                        (Some DataPrep.ValueError)) ∧
  (∀ standardise,
     DataPrep.main standardise [x_train; x_test] =
     DataPrep.ScriptRun (DataPrep.ScriptState [] ∅)
                        (Some DataPrep.ValueError)).
Proof. split; intros standardise; reflexivity. Qed.

(** ** Warehouse connector *)

Section SnowflakeFacts.
Import Py Snowflake.

Lemma randint_range (a b draw : Z) :
  (a <= b)%Z → (a <= randint a b draw <= b)%Z.
Proof.
  intros Hab. unfold randint.
  pose proof (Z.mod_pos_bound draw (b - a + 1) ltac:(lia)). lia.
Qed.

(** C3: between the fetch and the write-back exactly one cell of the table
    is assigned: the cell at row 0, column X0 receives the drawn integer
    [temp], which lies between 0 and 100; every other cell of the DataFrame
    passed to [write_pandas] is as it was fetched, a cell that differs from
    the fetched one can only be that cell, and the DataFrame goes back to
    the table it was read from. *)
Theorem written_dataframe_frame (fetched : DataFrame) (draw : Z) :
  let w := notebook fetched draw in
  (0 <= temp w <= 100)%Z ∧
  df_written w !! (0%Z, "X0") = Some (VInt (temp w)) ∧
  (∀ row col, (row, col) ≠ (0%Z, "X0") →
     df_written w !! (row, col) = fetched !! (row, col)) ∧
  (∀ cell, df_written w !! cell ≠ fetched !! cell → cell = (0%Z, "X0")) ∧
  table w = "MGML_AWS_SOURCE".
Proof.
  intros w. subst w. unfold notebook, loc_set. cbn [temp df_written table].
  split; [by apply randint_range |].
  split; [apply lookup_insert_eq |].
  split; [intros row col Hne; by apply lookup_insert_ne |].
  split; [| reflexivity].
  intros cell Hdiff. destruct (decide (cell = (0%Z, "X0"))) as [| Hne]; [done |].
  exfalso. apply Hdiff. by apply lookup_insert_ne.
Qed.

End SnowflakeFacts.

(** ** Deployment: what the clean up leaves *)

Section DeployFacts.
Import Deploy.
Local Set Warnings "-clear-no-such-hyp".

Lemma run_app (ss1 ss2 : list stmt) (p : platform) :
  run (ss1 ++ ss2) p = run ss1 p ≫= run ss2.
Proof.
  revert p. induction ss1 as [| s ss1 IH]; intros p; simpl; [done |].
  destruct (exec s p); simpl; [apply IH | done].
Qed.

(** The state in which the Clean Up section starts. *)
Lemma run_before_clean_up (local_name : string) (p : platform) :
  run (before_clean_up local_name) p =
  Some (Platform
    (({[local_name]} ∪ local_endpoints p) ∖ {[local_name]})
    ({[ "pytorch-production-variants" ]} ∪
       ({[ "mme-pytorch" ]} ∪ ({[ "pytorch-housing-auto" ]} ∪
           ({[ "pytorch-housing" ]} ∪ endpoints p))))
    ({[ "pytorch-boston-housing-model-monitor-schedule" ]} ∪ schedules p)
    (<["predictor" := Predictor ManagedSession "pytorch-housing"]>
       (<["prodvar_predictor" :=
            Predictor ManagedSession "pytorch-production-variants"]>
       (<["mme_predictor" := Predictor ManagedSession "mme-pytorch"]>
       (<["tuning_predictor" :=
            Predictor ManagedSession "pytorch-housing-auto"]>
       (<["predictor" := Predictor ManagedSession "pytorch-housing"]>
       (<["local_predictor" := Predictor LocalSession local_name]>
          (variables p)))))))).
Proof.
  unfold before_clean_up. cbn [run exec local_endpoints endpoints schedules variables].
  rewrite lookup_insert_eq. reflexivity.
Qed.

Ltac lookup_variable :=
  repeat first [ rewrite lookup_insert_eq
               | rewrite lookup_insert_ne by discriminate ].

(** The platform the whole notebook leaves behind. *)
Lemma run_notebook (local_name : string) (p : platform) :
  ∃ final,
    run (notebook local_name) p = Some final ∧
    endpoints final =
      {[ "pytorch-production-variants" ]} ∪
      (endpoints p ∖ {[ "pytorch-housing"; "pytorch-housing-auto";
                        "mme-pytorch" ]}) ∧
    schedules final =
      schedules p ∖ {[ "pytorch-boston-housing-model-monitor-schedule" ]} ∧
    local_endpoints final = local_endpoints p ∖ {[ local_name ]}.
Proof.
  unfold notebook. rewrite run_app, run_before_clean_up.
  cbn [mbind option_bind].
  unfold clean_up.
  cbn [run exec local_endpoints endpoints schedules variables].
  lookup_variable.
  cbn [run exec local_endpoints endpoints schedules variables].
  lookup_variable.
  cbn [run exec local_endpoints endpoints schedules variables].
  lookup_variable.
  cbn [run exec local_endpoints endpoints schedules variables].
  eexists. split; [reflexivity |].
  cbn [local_endpoints endpoints schedules variables].
  repeat split; set_solver.
Qed.

(** C2, as the notebook has it: run from any platform state, the notebook
    ends with the hosted, the autotuned and the multi-model endpoint and
    the monitoring schedule deleted (and the Local Mode endpoint, deleted
    earlier), while the production-variants endpoint, which the Clean Up
    cell leaves to manual deletion, still exists; no other endpoint or
    schedule is touched. *)
Theorem clean_up_leaves_production_variants (local_name : string)
    (p : platform) :
  ∃ final,
    run (notebook local_name) p = Some final ∧
    ("pytorch-housing" ∉ endpoints final) ∧
    ("pytorch-housing-auto" ∉ endpoints final) ∧
    ("mme-pytorch" ∉ endpoints final) ∧
    ("pytorch-boston-housing-model-monitor-schedule" ∉ schedules final) ∧
    (local_name ∉ local_endpoints final) ∧
    "pytorch-production-variants" ∈ endpoints final ∧
    endpoints final =
      {[ "pytorch-production-variants" ]} ∪
      (endpoints p ∖ {[ "pytorch-housing"; "pytorch-housing-auto";
                        "mme-pytorch" ]}) ∧
    schedules final =
      schedules p ∖ {[ "pytorch-boston-housing-model-monitor-schedule" ]} ∧
    local_endpoints final = local_endpoints p ∖ {[ local_name ]}.
Proof.
  destruct (run_notebook local_name p) as (final & Hrun & He & Hs & Hl).
  exists final. split; [exact Hrun |].
  rewrite He, Hs, Hl. repeat split; set_solver.
Qed.

(** The notebook run on a fresh platform leaves an endpoint it created. *)
Lemma production_variants_endpoint_remains :
  ∃ final,
    run (notebook "pytorch-inference-local") fresh = Some final ∧
    "pytorch-production-variants" ∈ created_endpoints ∧
    "pytorch-production-variants" ∈ endpoints final ∧
    ¬ torn_down final.
Proof.
  destruct (run_notebook "pytorch-inference-local" fresh)
    as (final & Hrun & He & _).
  assert ("pytorch-production-variants" ∈ endpoints final) as Hin
    by (rewrite He; set_solver).
  exists final. split; [exact Hrun |].
  split; [unfold created_endpoints; set_solver |].
  split; [exact Hin |].
  intros [Hall _]. unfold created_endpoints in Hall.
  rewrite !Forall_cons in Hall. tauto.
Qed.

End DeployFacts.

(** ** Exceptions raised by SDK calls *)

Section CellFacts.
Import Cells.
Context {W : Type}.
Variable sdk : string → W → outcome W.








End CellFacts.



(** ** The health check *)

Section ServingFacts.
Import Serving.

(** C8: whatever the other handlers of the container do, a health-check
    request (GET /ping) is answered with status 200, and the notebook's
    ping cell reads the code 200. *)
Theorem ping_returns_200 (other : request → response) (r : request) :
  is_health_check r = true →
  status (serve other r) = 200%Z ∧
  ping_cell (serve other) = Some 200%Z.
Proof.
  intros Hr. unfold serve. rewrite Hr. split; reflexivity.
Qed.

End ServingFacts.

Lemma ping_returns_200_witness :
  Serving.is_health_check
    (Serving.Request Serving.GET "http://localhost:8080/ping") = true ∧
  Serving.status
    (Serving.serve (λ _, Serving.Response 500 "")
       (Serving.Request Serving.GET "http://localhost:8080/ping")) = 200%Z.
Proof.
  split; [reflexivity |].
  apply (ping_returns_200 (λ _, Serving.Response 500 "")
           (Serving.Request Serving.GET "http://localhost:8080/ping")).
  reflexivity.
Defined.

(** ** The script: what is left on disk *)

Section ScriptDisk.
Import DataPrep.
Variable standardise : matrix → exception + matrix.

Lemma output_path_two (file : string) :
  output_path file = "/opt/ml/processing/train/x_train.npy" ∧
    contains "train" file = true ∨
  output_path file = "/opt/ml/processing/test/x_test.npy" ∧
    contains "train" file = false.
Proof.
  rewrite output_path_cases. destruct (contains "train" file); auto.
Qed.

(** The disk after a list of saves that follow the routing of the loop. *)
Lemma disk_of_saves (results : list ((string * matrix) * matrix)) :
  let d := fold_left (λ d e, <[e.1 := e.2]> d)
             (map (λ r, (output_path r.1.1, r.2)) results)
             (∅ : gmap string matrix) in
  d !! "/opt/ml/processing/train/x_train.npy" =
    snd <$> last (List.filter (λ r, contains "train" r.1.1) results) ∧
  d !! "/opt/ml/processing/test/x_test.npy" =
    snd <$> last (List.filter (λ r, negb (contains "train" r.1.1)) results) ∧
  ∀ p, p ≠ "/opt/ml/processing/train/x_train.npy" →
       p ≠ "/opt/ml/processing/test/x_test.npy" →
       d !! p = None.
Proof.
  cbv zeta.
  induction results as [| [[file raw] t] results IH] using rev_ind.
  - simpl. repeat split; intros; apply lookup_empty.
  - rewrite map_app, fold_left_app, !List.filter_app.
    cbn [map fold_left fst snd].
    destruct IH as (IHtrain & IHtest & IHother).
    cbn [List.filter fst].
    destruct (output_path_two file) as [[-> ->] | [-> ->]]; cbn [negb].
    + rewrite app_nil_r. repeat split.
      * by rewrite lookup_insert_eq, last_snoc.
      * by rewrite lookup_insert_ne.
      * intros p H1 H2. rewrite lookup_insert_ne by done. by apply IHother.
    + rewrite app_nil_r. repeat split.
      * by rewrite lookup_insert_ne.
      * by rewrite lookup_insert_eq, last_snoc.
      * intros p H1 H2. rewrite lookup_insert_ne by done. by apply IHother.
Qed.

Lemma zip_with_routing (processed : list (string * matrix))
    (transformed : list matrix) :
  zip_with (λ input t, (output_path input.1, t)) processed transformed
  = map (λ r, (output_path r.1.1, r.2)) (zip processed transformed).
Proof.
  revert transformed.
  induction processed as [| input processed IH]; intros [| t transformed];
    simpl; try reflexivity.
  by rewrite IH.
Qed.

(** X1: let the script get through the files [processed], for which
    [fit_transform] returns the arrays [transformed], and then reach the end
    of the list or a file for which [fit_transform] raises.  On exit
    x_train.npy holds the array returned for the last processed file whose
    path contains [train] and x_test.npy that for the last processed file
    whose path does not (earlier files of the same kind are overwritten); a
    kind without a processed file leaves no output; no other path is
    written; and the files from the refused one on leave no trace. *)
Theorem disk_after_script (processed rest : list (string * matrix))
    (transformed : list matrix) :
  Forall2 (λ input t, fit_transform standardise input.2 = inr t)
          processed transformed →
  match rest with
  | [] => True
  | input :: _ => fit_transform standardise input.2 = inl ValueError
  end →
  let run := main standardise (processed ++ rest) in
  let results := zip processed transformed in
  (uncaught run = None ↔ rest = []) ∧
  disk (at_exit run) !! "/opt/ml/processing/train/x_train.npy" =
    snd <$> last (List.filter (λ r, contains "train" r.1.1) results) ∧
  disk (at_exit run) !! "/opt/ml/processing/test/x_test.npy" =
    snd <$> last (List.filter (λ r, negb (contains "train" r.1.1)) results) ∧
  (∀ p, p ≠ "/opt/ml/processing/train/x_train.npy" →
        p ≠ "/opt/ml/processing/test/x_test.npy" →
        disk (at_exit run) !! p = None) ∧
  at_exit run = at_exit (main standardise processed).
Proof.
  intros Hall Hrest. cbv zeta.
  rewrite (main_run standardise processed transformed rest Hall Hrest).
  cbn [at_exit uncaught].
  split; [by destruct rest |].
  rewrite disk_after_saves. cbn [disk]. rewrite zip_with_routing.
  destruct (disk_of_saves (zip processed transformed)) as (Htrain & Htest & Hother).
  repeat split; [exact Htrain | exact Htest | exact Hother |].
  pose proof (main_run standardise processed transformed [] Hall I) as Hmain.
  rewrite app_nil_r in Hmain. rewrite Hmain. cbn [at_exit].
  by rewrite zip_with_routing.
Qed.

End ScriptDisk.

(** Two training files and a test file, the second training file without
    rows, for a library that hands back the arrays it accepts unchanged:
    the script stops at the second file; x_train.npy holds what was
    returned for the first, and x_test.npy is not written. *)
Lemma disk_after_script_witness :
  let std : DataPrep.matrix → DataPrep.exception + DataPrep.matrix := inr in
  let a := [[PrimFloat.one]; [PrimFloat.two]] in
  let run :=
    DataPrep.main std
      ([("/opt/ml/processing/input/a_train.npy", a)] ++
       [("/opt/ml/processing/input/b_train.npy", []);
        ("/opt/ml/processing/input/c_test.npy", [[PrimFloat.one]])]) in
  DataPrep.uncaught run = Some DataPrep.ValueError ∧
  DataPrep.disk (DataPrep.at_exit run)
    !! "/opt/ml/processing/train/x_train.npy" = Some a ∧
  DataPrep.disk (DataPrep.at_exit run)
    !! "/opt/ml/processing/test/x_test.npy" = None.
Proof.
  intros std a run.
  destruct (disk_after_script std
              [("/opt/ml/processing/input/a_train.npy", a)]
              [("/opt/ml/processing/input/b_train.npy", []);
               ("/opt/ml/processing/input/c_test.npy", [[PrimFloat.one]])]
              [a])
    as (Hraised & Htrain & Htest & _).
  - repeat constructor.
  - reflexivity.
  - split; [| split; [exact Htrain | exact Htest]].
    destruct (DataPrep.uncaught run) as [[] |] eqn:Hrun; [reflexivity |].
    by apply Hraised in Hrun.
Defined.

(** ** The script: routing *)

Section Routing.
Import DataPrep.

Lemma append_cons (x : Ascii.ascii) (a b : string) :
  String x a +:+ b = String x (a +:+ b).
Proof. reflexivity. Qed.

Lemma append_assoc (a b c : string) : (a +:+ b) +:+ c = a +:+ b +:+ c.
Proof.
  induction a as [| x a IH]; [reflexivity |].
  by rewrite !append_cons, IH.
Qed.

Lemma contains_append (needle a b : string) :
  contains needle a = true → contains needle (a +:+ b) = true.
Proof.
  rewrite !contains_spec. intros (pre & post & ->).
  exists pre, (post +:+ b). by rewrite !append_assoc.
Qed.

(** X2: the test ['train' in file] looks at the whole path.  Below the
    directory the script globs, /opt/ml/processing/input, it comes down to
    the file name alone; below a directory whose own path contains
    [train], every file is saved as training data, whatever its name. *)
Theorem routing_by_path :
  (∀ name,
     contains "train" ("/opt/ml/processing/input/" +:+ name)
     = contains "train" name ∧
     output_path ("/opt/ml/processing/input/" +:+ name) = output_path name) ∧
  (∀ dir name,
     contains "train" dir = true →
     output_path (dir +:+ "/" +:+ name)
     = "/opt/ml/processing/train/x_train.npy").
Proof.
  split.
  - intros name.
    assert (contains "train" ("/opt/ml/processing/input/" +:+ name)
            = contains "train" name) as H.
    { rewrite append_cons, contains_unfold. simpl. reflexivity. }
    split; [exact H |]. unfold output_path. simpl in *. by rewrite H.
  - intros dir name H. rewrite output_path_cases.
    by rewrite (contains_append "train" dir ("/" +:+ name) H).
Qed.

End Routing.

(** ** The script: the order of the glob *)

Section GlobOrder.
Import DataPrep.
Variable standardise : matrix → exception + matrix.

Lemma fold_insert_list_to_map (l : list (string * matrix)) :
  fold_left (λ d e, <[e.1 := e.2]> d) l (∅ : gmap string matrix)
  = list_to_map (reverse l).
Proof.
  induction l as [| [k v] l IH] using rev_ind; [reflexivity |].
  by rewrite fold_left_app, reverse_snoc, IH.
Qed.

(** What the library returns for an array it accepts. *)
Lemma accepted_returns (X : matrix) :
  fit_transform standardise X ≠ inl ValueError →
  ∃ t, fit_transform standardise X = inr t.
Proof.
  destruct (fit_transform standardise X) as [[] | t]; [done | by exists t].
Qed.

(** A run over files that are all accepted ends without exception, with
    one save per file. *)
Lemma main_all_accepted (input_files : list (string * matrix)) :
  Forall (λ input, fit_transform standardise input.2 ≠ inl ValueError)
         input_files →
  ∃ results : list ((string * matrix) * matrix),
    map fst results = input_files ∧
    Forall (λ r, fit_transform standardise r.1.2 = inr r.2) results ∧
    main standardise input_files =
    ScriptRun
      (fold_left (λ st e, np_save e.1 e.2 st)
         (map (λ r, (output_path r.1.1, r.2)) results)
         (ScriptState [] ∅))
      None.
Proof.
  intros Hall.
  destruct (inputs_split standardise input_files)
    as (processed & transformed & rest & -> & Hret & Hrest).
  destruct rest as [| bad rest].
  - exists (zip processed transformed). rewrite app_nil_r.
    split; [| split].
    + apply fst_zip. apply Forall2_length in Hret. lia.
    + clear Hall. induction Hret; [constructor |]. by constructor.
    + pose proof (main_run standardise processed transformed [] Hret I) as H.
      rewrite app_nil_r in H. by rewrite H, zip_with_routing.
  - apply Forall_app in Hall as [_ Hbad].
    apply Forall_cons_1 in Hbad as [Hbad _]. done.
Qed.

(** X3: when [fit_transform] returns for every input file and no two
    files are saved to the same path (at most one path with [train] and at
    most one without), the script ends without exception and leaves the
    same files on disk in whichever order the glob lists the inputs. *)
Theorem glob_order_irrelevant (l1 l2 : list (string * matrix)) :
  l1 ≡ₚ l2 →
  NoDup (map (λ input, output_path input.1) l1) →
  Forall (λ input, fit_transform standardise input.2 ≠ inl ValueError) l1 →
  uncaught (main standardise l1) = None ∧
  uncaught (main standardise l2) = None ∧
  disk (at_exit (main standardise l1)) = disk (at_exit (main standardise l2)).
Proof.
  intros Hperm Hnd Hall1.
  assert (Forall (λ input, fit_transform standardise input.2 ≠ inl ValueError)
                 l2) as Hall2 by by rewrite <- Hperm.
  destruct (main_all_accepted l1 Hall1) as (r1 & Hfst1 & Hret1 & ->).
  destruct (main_all_accepted l2 Hall2) as (r2 & Hfst2 & Hret2 & ->).
  cbn [uncaught at_exit]. split; [done |]. split; [done |].
  rewrite !disk_after_saves. cbn [disk].
  rewrite !fold_insert_list_to_map.
  assert (∀ r : list ((string * matrix) * matrix),
            map fst (map (λ r, (output_path r.1.1, r.2)) r)
            = map (λ input, output_path input.1) (map fst r)) as Hpaths.
  { intros r. rewrite !map_map. reflexivity. }
  assert (NoDup (map (λ input, output_path input.1) l2)) as Hnd2.
  { change (NoDup ((λ input : string * matrix, output_path input.1) <$> l2)).
    by rewrite <- Hperm. }
  apply map_eq. intros p.
  destruct (list_to_map (reverse (map (λ r, (output_path r.1.1, r.2)) r1))
              !! p) as [t |] eqn:H1.
  - symmetry. apply elem_of_list_to_map_2 in H1.
    rewrite elem_of_reverse in H1.
    apply list_elem_of_In, in_map_iff in H1 as ([[file raw] t'] & Heq & Hin).
    cbn [fst snd] in Heq. injection Heq as <- <-.
    assert (fit_transform standardise raw = inr t') as Ht'.
    { rewrite Forall_forall in Hret1.
      apply (Hret1 ((file, raw), t')). by apply list_elem_of_In. }
    assert ((file, raw) ∈ l2) as Hin2.
    { rewrite <- Hperm, <- Hfst1. apply list_elem_of_In, in_map_iff.
      by exists ((file, raw), t'). }
    rewrite <- Hfst2 in Hin2.
    apply list_elem_of_In, in_map_iff in Hin2 as ([input t2] & Heq & Hin2).
    cbn [fst] in Heq. subst input.
    assert (fit_transform standardise raw = inr t2) as Ht2.
    { rewrite Forall_forall in Hret2.
      apply (Hret2 ((file, raw), t2)). by apply list_elem_of_In. }
    assert (t2 = t') as -> by congruence.
    apply elem_of_list_to_map_1.
    + rewrite fmap_reverse, reverse_Permutation.
      change (NoDup (map fst (map (λ r, (output_path r.1.1, r.2)) r2))).
      by rewrite Hpaths, Hfst2.
    + rewrite elem_of_reverse. apply list_elem_of_In, in_map_iff.
      by exists ((file, raw), t').
  - symmetry. apply not_elem_of_list_to_map_1.
    apply not_elem_of_list_to_map_2 in H1.
    rewrite fmap_reverse, elem_of_reverse in H1 |- *.
    change (p ∉ map fst (map (λ r, (output_path r.1.1, r.2)) r1)) in H1.
    change (p ∉ map fst (map (λ r, (output_path r.1.1, r.2)) r2)).
    rewrite Hpaths, Hfst1 in H1. rewrite Hpaths, Hfst2.
    intros Hin. apply H1.
    rewrite (fmap_Permutation (λ input : string * matrix, output_path input.1)
               _ _ Hperm).
    exact Hin.
Qed.

End GlobOrder.

(** The two files of the notebook, listed in either order, for a library
    that hands back the arrays it accepts unchanged. *)
Lemma glob_order_irrelevant_witness :
  let std : DataPrep.matrix → DataPrep.exception + DataPrep.matrix := inr in
  let train := ("/opt/ml/processing/input/x_train.npy",
                [[PrimFloat.one]; [PrimFloat.two]]) in
  let test := ("/opt/ml/processing/input/x_test.npy", [[PrimFloat.two]]) in
  DataPrep.uncaught (DataPrep.main std [train; test]) = None ∧
  DataPrep.uncaught (DataPrep.main std [test; train]) = None ∧
  DataPrep.disk (DataPrep.at_exit (DataPrep.main std [train; test]))
  = DataPrep.disk (DataPrep.at_exit (DataPrep.main std [test; train])).
Proof.
  intros std train test.
  apply (glob_order_irrelevant std [train; test] [test; train]).
  - apply perm_swap.
  - simpl. apply (bool_decide_unpack _). by vm_compute.
  - repeat constructor; discriminate.
Defined.

(** With a file the library refuses the order does matter: listed first,
    it ends the script before the other file is saved; listed last, the
    other file is on disk when the script ends. *)
Example glob_order_matters_with_refused_file :
  let std : DataPrep.matrix → DataPrep.exception + DataPrep.matrix := inr in
  let train : string * DataPrep.matrix :=
    ("/opt/ml/processing/input/x_train.npy", []) in
  let test := ("/opt/ml/processing/input/x_test.npy", [[PrimFloat.two]]) in
  DataPrep.saved (DataPrep.at_exit (DataPrep.main std [train; test])) = [] ∧
  DataPrep.saved (DataPrep.at_exit (DataPrep.main std [test; train]))
  = [("/opt/ml/processing/test/x_test.npy", [[PrimFloat.two]])].
Proof. split; reflexivity. Qed.

(** ** The split: small datasets and proportions *)

Section SplitEdges.
Import DataPrep.
Context {A B : Type}.

(** X5: the training slice is empty exactly for datasets of fewer than
    two rows and the test slice exactly for the empty dataset; from two
    rows on the test slice is never longer than the training slice, and it
    always stays within one row of a quarter of it. *)
Theorem split_edge_cases (x : list A) (y : list B) :
  let s := train_test_split x y in
  (x_train s = [] ↔ length x < 2) ∧
  (x_test s = [] ↔ x = []) ∧
  (2 ≤ length x → length (x_test s) ≤ length (x_train s)) ∧
  4 * length (x_test s) ≤ length (x_train s) + 4.
Proof.
  cbv zeta. unfold train_test_split. cbn [x_train x_test].
  set (n := length x). set (k := training_index n).
  assert (k ≤ n) as Hk by apply training_index_le.
  assert (10 * k ≤ 8 * n ∧ 8 * n < 10 * S k) as [Hlo Hhi].
  { unfold k, training_index.
    pose proof (Nat.Div0.mul_div_le (8 * n) 10).
    pose proof (Nat.mul_succ_div_gt (8 * n) 10 ltac:(lia)). lia. }
  assert (length (take k x) = k) as Htake by (rewrite length_take; lia).
  assert (length (drop k x) = n - k) as Hdrop by apply length_drop.
  repeat split.
  - intros H. rewrite H in Htake. simpl in Htake. lia.
  - intros H. apply length_zero_iff_nil. lia.
  - intros H. rewrite H in Hdrop. simpl in Hdrop.
    apply length_zero_iff_nil. fold n. lia.
  - intros ->. by rewrite drop_nil.
  - intros H. lia.
  - lia.
Qed.

End SplitEdges.

(** ** Predictions over the first ten test rows *)

Section FirstTen.
Import DataPrep Inference.
Context {A B C : Type}.

Lemma mapM_fmap_list {X Y Z : Type} (f : Y → option Z) (g : X → Y)
    (l : list X) :
  mapM f (g <$> l) = mapM (f ∘ g) l.
Proof.
  induction l as [| x l IH]; csimpl; [done |].
  destruct (f (g x)); csimpl; [f_equal; apply IH | done].
Qed.

Lemma mapM_lookup_seq (f : A → B) (l : list A) (n : nat) :
  mapM (λ i, f <$> l !! i) (seq 0 n) =
  if decide (n ≤ length l) then Some (map f (take n l)) else None.
Proof.
  revert l. induction n as [| n IH]; intros l.
  - by destruct l.
  - destruct l as [| a l].
    + simpl. first [reflexivity | case_decide; [lia | reflexivity]].
    + cbn [seq]. rewrite <- fmap_S_seq. cbn [mapM lookup list_lookup fmap option_fmap option_map].
      rewrite mapM_fmap_list.
      change (mapM ((λ i, f <$> (a :: l) !! i) ∘ S) (seq 0 n))
        with (mapM (λ i, f <$> l !! i) (seq 0 n)).
      rewrite IH. simpl. repeat case_decide; try lia; reflexivity.
Qed.

(** X6: the cells that predict on [x_test[i]] for [i] below ten run
    through exactly when the test slice has ten rows, that is, when the
    dataset that was split has at least 46 rows; they then predict on the
    first ten rows after the training index, in order. *)
Theorem first_ten_needs_46_rows (predict : A → B) (x : list A) (y : list C) :
  first_ten_predictions predict (x_test (train_test_split x y)) =
  if decide (46 ≤ length x)
  then Some (map predict (take 10 (drop (training_index (length x)) x)))
  else None.
Proof.
  unfold first_ten_predictions, train_test_split. cbn [x_test].
  rewrite mapM_lookup_seq, length_drop.
  set (n := length x).
  assert (10 * training_index n ≤ 8 * n ∧ 8 * n < 10 * S (training_index n))
    as [Hlo Hhi].
  { unfold training_index.
    pose proof (Nat.Div0.mul_div_le (8 * n) 10).
    pose proof (Nat.mul_succ_div_gt (8 * n) 10 ltac:(lia)). lia. }
  repeat case_decide; try reflexivity; lia.
Qed.

End FirstTen.

(** ** Captured predictions *)

Section CapturedFacts.
Import DataPrep Inference.
Variable readlines : string → list string.
Variable parse : string → option R.

Lemma read_files_last (root : string) (files : list string)
    (var : option (list string)) :
  fold_left (λ var file,
               if String.eqb file ".DS_Store" then var
               else Some (readlines (path_join root file)))
            files var
  = match last (map (path_join root)
                  (List.filter (λ file, negb (String.eqb file ".DS_Store"))
                               files)) with
    | Some path => Some (readlines path)
    | None => var
    end.
Proof.
  induction files as [| file files IH] using rev_ind; [reflexivity |].
  rewrite fold_left_app, List.filter_app, map_app. cbn [fold_left List.filter].
  destruct (String.eqb file ".DS_Store"); cbn [negb map].
  - by rewrite app_nil_r.
  - by rewrite last_snoc.
Qed.

Lemma read_captures_app (w1 w2 : walk) (var : option (list string)) :
  read_captures readlines (w1 ++ w2) var
  = read_captures readlines w2 (read_captures readlines w1 var).
Proof. unfold read_captures. apply fold_left_app. Qed.

Lemma last_app_cases {X : Type} (l1 l2 : list X) :
  last (l1 ++ l2) = match last l2 with Some x => Some x | None => last l1 end.
Proof.
  induction l2 as [| x l2 _] using rev_ind.
  - by rewrite app_nil_r.
  - by rewrite app_assoc, !last_snoc.
Qed.

Lemma read_captures_last (w : walk) (var : option (list string)) :
  read_captures readlines w var
  = match last (data_files w) with
    | Some path => Some (readlines path)
    | None => var
    end.
Proof.
  induction w as [| [root files] w IH] using rev_ind; [reflexivity |].
  rewrite read_captures_app, IH. unfold data_files.
  rewrite flat_map_app. cbn [flat_map]. rewrite app_nil_r, last_app_cases.
  unfold read_captures at 1. cbn [fold_left]. rewrite read_files_last.
  by destruct (last (map (path_join root) _)).
Qed.

(** X7: of all the capture files the walk finds, only the one opened last
    is used: the predictions are parsed from the lines of the last file
    that is not .DS_Store, the lines of every file read before are
    dropped; when the walk finds no such file the cell fails on the
    unbound name [requests_predictions_file] if nothing bound it before. *)
Theorem captured_predictions_from_last_file (w : walk)
    (requests_predictions_file : option (list string)) :
  predictions_of parse (read_captures readlines w requests_predictions_file)
  = match last (data_files w) with
    | Some path => predictions_of parse (Some (readlines path))
    | None => predictions_of parse requests_predictions_file
    end
  ∧ (data_files w = [] →
     predictions_of parse (read_captures readlines w None) = NameError).
Proof.
  split.
  - rewrite read_captures_last. by destruct (last (data_files w)).
  - intros Hw. by rewrite read_captures_last, Hw.
Qed.

(** X8: the Variant2 cell reuses the name the Variant1 cell bound: when
    the walk over the Variant2 directory finds no capture file, the
    Variant2 predictions are silently those of Variant1 instead of an
    error. *)
Theorem variant2_reuses_variant1_lines (w1 w2 : walk)
    (requests_predictions_file : option (list string)) :
  data_files w2 = [] →
  (variant_cells readlines parse w1 w2 requests_predictions_file).2
  = (variant_cells readlines parse w1 w2 requests_predictions_file).1.
Proof.
  intros Hw2. unfold variant_cells. cbn [fst snd].
  by rewrite (read_captures_last w2), Hw2.
Qed.

End CapturedFacts.

Lemma variant2_reuses_variant1_lines_witness :
  (Inference.variant_cells
     (λ path, if String.eqb path "./data/model_monitor/Variant1/a.jsonl"
              then ["7"; "9"] else [])
     (λ line, if String.eqb line "7" then Some 7%R
              else if String.eqb line "9" then Some 9%R else None)
     [("./data/model_monitor/Variant1", ["a.jsonl"])]
     [("./data/model_monitor/Variant2", [".DS_Store"])]
     None).2
  = Inference.Predictions [7%R; 9%R].
Proof.
  rewrite variant2_reuses_variant1_lines; reflexivity.
Defined.

(** ** Prediction errors *)

Section ErrorFacts.
Import Inference.

Lemma errors_cons (g : R) (gs ps : list R) (p : R) :
  errors (g :: gs) (p :: ps) = cons (g - p)%R <$> errors gs ps.
Proof.
  unfold errors. cbn [length seq]. rewrite <- fmap_S_seq. csimpl.
  rewrite mapM_fmap_list.
  change (mapM _ (seq 0 (length gs)))
    with (mapM (λ i, g0 ← gs !! i; p0 ← ps !! i; Some (g0 - p0)%R)
               (seq 0 (length gs))).
  by destruct (mapM _ _).
Qed.

(** X9: the error lists of the Levene test index the predictions by the
    positions of the ground truth: with fewer predictions than true values
    the cell fails ([IndexError]); otherwise it yields one difference per
    true value and ignores predictions beyond.  The preview cell with
    [zip] never fails: it stops at the shorter list. *)
Theorem errors_need_enough_predictions (ground_truth predictions : list R) :
  errors ground_truth predictions =
    (if decide (length ground_truth ≤ length predictions)
     then Some (zip_with Rminus ground_truth predictions)
     else None) ∧
  length (first_pairs ground_truth predictions)
  = 10 `min` (length ground_truth `min` length predictions).
Proof.
  split.
  - revert predictions.
    induction ground_truth as [| g gs IH]; intros ps.
    + destruct ps; reflexivity.
    + destruct ps as [| p ps].
      * unfold errors. simpl. first [reflexivity | case_decide; [lia | done]].
      * rewrite errors_cons, IH. simpl.
        repeat case_decide; try lia; reflexivity.
  - unfold first_pairs. rewrite length_take, length_zip. lia.
Qed.

End ErrorFacts.

(** ** The tuner parameters between notebooks *)

Section TunerParameters.
Import Py PyDict.

Lemma dict_contains_get (k : string) (d : dict) :
  dict_contains k d = true ↔ is_Some (dict_get k d).
Proof.
  induction d as [| [k' v] d IH]; simpl.
  - split; [done | by intros [? ?]].
  - destruct (String.eqb k k'); simpl; [split; eauto | exact IH].
Qed.

Lemma dict_get_filter_other (k k' : string) (d : dict) :
  k' ≠ k →
  dict_get k' (List.filter (λ e, negb (String.eqb k e.1)) d) = dict_get k' d.
Proof.
  intros Hne. induction d as [| [k0 v] d IH]; simpl; [done |].
  destruct (String.eqb_spec k k0) as [<- | Hk]; simpl.
  - destruct (String.eqb_spec k' k); [done | exact IH].
  - destruct (String.eqb k' k0); [done | exact IH].
Qed.

Lemma dict_get_filter_same (k : string) (d : dict) :
  dict_get k (List.filter (λ e, negb (String.eqb k e.1)) d) = None.
Proof.
  induction d as [| [k0 v] d IH]; simpl; [done |].
  destruct (String.eqb_spec k k0) as [<- | Hk]; simpl; [exact IH |].
  destruct (String.eqb_spec k k0); [done | exact IH].
Qed.

Lemma dict_get_setitem (k k' : string) (v : value) (d : dict) :
  dict_get k' (dict_setitem k v d)
  = if String.eqb k' k then Some v else dict_get k' d.
Proof.
  induction d as [| [k0 v0] d IH]; simpl.
  - by destruct (String.eqb k' k).
  - destruct (String.eqb_spec k k0) as [<- | Hk]; simpl.
    + by destruct (String.eqb k' k).
    + destruct (String.eqb_spec k' k0) as [-> | Hk'].
      * by destruct (String.eqb_spec k0 k).
      * exact IH.
Qed.

(** X10: the guarded deletion of the key [estimator] before the store
    never raises, with or without the key, and can be repeated; it leaves
    every other entry as it was.  Assigning the key again in the
    deployment notebook gives a dictionary that holds the new estimator
    and, under every other key, what the training notebook had.  A second
    deletion without the guard would raise [KeyError]. *)
Theorem estimator_removed_and_restored (tuner_parameters : dict)
    (estimator : value) :
  ∃ stored,
    remove_estimator tuner_parameters = Some stored ∧
    remove_estimator stored = Some stored ∧
    dict_delitem "estimator" stored = None ∧
    dict_get "estimator" stored = None ∧
    (∀ k, k ≠ "estimator" → dict_get k stored = dict_get k tuner_parameters) ∧
    dict_get "estimator" (restore_estimator estimator stored)
      = Some estimator ∧
    (∀ k, k ≠ "estimator" →
       dict_get k (restore_estimator estimator stored)
       = dict_get k tuner_parameters).
Proof.
  unfold remove_estimator, dict_delitem, restore_estimator.
  destruct (dict_contains "estimator" tuner_parameters) eqn:Hin.
  - eexists. split; [reflexivity |].
    assert (dict_contains "estimator"
              (List.filter (λ e, negb (String.eqb "estimator" e.1))
                      tuner_parameters) = false) as Hout.
    { apply not_true_is_false. rewrite dict_contains_get.
      rewrite dict_get_filter_same. by intros [? ?]. }
    rewrite Hout. repeat split.
    + apply dict_get_filter_same.
    + intros k Hk. by apply dict_get_filter_other.
    + by rewrite dict_get_setitem.
    + intros k Hk. rewrite dict_get_setitem.
      destruct (String.eqb_spec k "estimator"); [done |].
      by apply dict_get_filter_other.
  - exists tuner_parameters. rewrite Hin.
    assert (dict_get "estimator" tuner_parameters = None) as Hnone.
    { destruct (dict_get "estimator" tuner_parameters) eqn:Hget; [| done].
      assert (dict_contains "estimator" tuner_parameters = true)
        by (apply dict_contains_get; eauto).
      congruence. }
    repeat split; try done.
    + by rewrite dict_get_setitem.
    + intros k Hk. rewrite dict_get_setitem.
      by destruct (String.eqb_spec k "estimator").
Qed.

End TunerParameters.

(** ** The connection cell *)

Section ConnectFacts.
Import Py Connect.

(** X11: the connection cell passes the six entries of [param_values] on
    exactly when the name is bound to a dictionary that has all six keys;
    with the name unbound (the cell's own literal is inside a string) it
    raises [NameError], and with a key missing [KeyError] for the first
    missing key in the order the arguments are written. *)
Theorem connect_cell_outcomes :
  connect_cell None = inl (NameError "param_values") ∧
  ∀ d,
    match list_find (λ k, dict_get k d = None) keys with
    | Some (_, k) => connect_cell (Some d) = inl (KeyError k)
    | None =>
        ∃ user password account warehouse database schema,
          dict_get "/SNOWFLAKE/USER_ID" d = Some user ∧
          dict_get "/SNOWFLAKE/PASSWORD" d = Some password ∧
          dict_get "/SNOWFLAKE/ACCOUNT_ID" d = Some account ∧
          dict_get "/SNOWFLAKE/WAREHOUSE" d = Some warehouse ∧
          dict_get "/SNOWFLAKE/DATABASE" d = Some database ∧
          dict_get "/SNOWFLAKE/SCHEMA" d = Some schema ∧
          connect_cell (Some d) =
            inr (ConnectArgs user password account warehouse database schema)
    end.
Proof.
  split; [reflexivity |]. intros d.
  unfold keys, connect_cell, subscript. cbn [list_find].
  repeat (match goal with
          | |- context [decide (dict_get ?k d = None)] =>
              destruct (dict_get k d) eqn:?; cbn
          end; try reflexivity).
  repeat eexists.
Qed.

End ConnectFacts.

(** ** Running the mutation cell again *)

Section RerunFacts.
Import Py Snowflake Connect.

(** X12: however often the mutation cell is run before the write-back, the
    DataFrame differs from the fetched one in the cell (0, X0) only, and
    that cell holds the number of the last run. *)
Theorem rerun_mutation_last_draw (fetched : DataFrame) (draws : list Z)
    (draw : Z) :
  let df := rerun_mutation fetched (draws ++ [draw]) in
  df !! (0%Z, "X0") = Some (VInt (randint 0 100 draw)) ∧
  (∀ cell, cell ≠ (0%Z, "X0") → df !! cell = fetched !! cell) ∧
  df = df_written (notebook fetched draw).
Proof.
  cbv zeta. unfold rerun_mutation. rewrite fold_left_app. cbn [fold_left].
  unfold notebook, loc_set. cbn [df_written].
  assert (∀ ds (df0 : DataFrame), fold_left
            (λ df d, <[(0%Z, "X0") := VInt (randint 0 100 d)]> df) ds df0
          = match last ds with
            | Some d => <[(0%Z, "X0") := VInt (randint 0 100 d)]> df0
            | None => df0
            end) as Hfold.
  { induction ds as [| d ds IH] using rev_ind; intros df0; [reflexivity |].
    rewrite fold_left_app, last_snoc, IH. cbn [fold_left].
    destruct (last ds); [apply insert_insert_eq | reflexivity]. }
  rewrite Hfold.
  repeat split.
  - apply lookup_insert_eq.
  - intros cell Hne. rewrite lookup_insert_ne by done.
    destruct (last draws); [by rewrite lookup_insert_ne | done].
  - destruct (last draws); [apply insert_insert_eq | reflexivity].
Qed.

End RerunFacts.

(** ** Names of different kinds *)

Section NameKinds.
Import Orchestration Names.

Lemma last_char_append (s t : string) :
  t ≠ "" → last_char (s +:+ t) = last_char t.
Proof.
  intros Ht. induction s as [| c s IH]; [reflexivity |].
  change (String c s +:+ t) with (String c (s +:+ t)).
  cbn [last_char]. rewrite IH.
  destruct (s +:+ t) eqn:Hst; [| reflexivity].
  destruct s; [by destruct t | discriminate].
Qed.

Lemma append_nonempty (s t : string) : t ≠ "" → s +:+ t ≠ "".
Proof. intros Ht. destruct s; [exact Ht | discriminate]. Qed.

Lemma last_char_append3 (p id t : string) :
  t ≠ "" → last_char (p +:+ id +:+ t) = last_char t.
Proof.
  intros Ht. rewrite last_char_append by by apply append_nonempty.
  by apply last_char_append.
Qed.

(** X13: names of different kinds never coincide, whatever the two ids:
    a training-job name is never a model name or an endpoint name, and a
    model name never an endpoint name; the workflow's own name determines
    the id as well. *)
Theorem names_of_different_kinds_differ (id1 id2 : string) :
  training_job_name id1 ≠ model_name id2 ∧
  training_job_name id1 ≠ endpoint_name id2 ∧
  model_name id1 ≠ endpoint_name id2 ∧
  (workflow_name id1 = workflow_name id2 → id1 = id2).
Proof.
  unfold training_job_name, model_name, endpoint_name, workflow_name.
  repeat split.
  - intros H. discriminate.
  - intros H. apply (f_equal last_char) in H.
    rewrite !last_char_append3 in H by discriminate.
    discriminate.
  - intros H. discriminate.
  - intros H. by apply (inj (String.append "MyTrainingRoutine")) in H.
Qed.

End NameKinds.

(** ** Paths across notebooks *)

Section StorageFacts.
Import DataPrep Storage.

(** X14: for every bucket the paths of the notebooks line up: the prefix
    the training notebook uploads data/train and data/test to is the
    destination of the processing job's output of that name, and the file
    the script saves for a training (test) input is uploaded as exactly
    the object the notebook then copies to data/train/x_train.npy
    (data/test/x_test.npy). *)
Theorem storage_paths_line_up (bucket : string) :
  train_s3 bucket = train_destination bucket ∧
  test_s3 bucket = test_destination bucket ∧
  ∀ file,
    uploaded_as "/opt/ml/processing/train" (train_destination bucket)
                (output_path file)
      = (if contains "train" file then Some (train_in_s3 bucket) else None) ∧
    uploaded_as "/opt/ml/processing/test" (test_destination bucket)
                (output_path file)
      = (if contains "train" file then None else Some (test_in_s3 bucket)).
Proof.
  unfold train_s3, test_s3, upload_data, train_destination, test_destination,
    train_in_s3, test_in_s3, output_destination, traindata_s3_prefix,
    testdata_s3_prefix.
  split; [by rewrite !append_assoc |].
  split; [by rewrite !append_assoc |].
  intros file. rewrite output_path_cases.
  destruct (contains "train" file); unfold uploaded_as; cbn [strip_prefix];
    simpl; split; try reflexivity; f_equal; by rewrite !append_assoc.
Qed.

(** X15: from the dataset to the processed files.  When [fit_transform]
    returns for both slices of the split, the job ends without exception
    and leaves in x_train.npy what it returned for the first
    [training_index] rows and in x_test.npy what it returned for the
    remaining rows, each slice transformed on its own; this holds in
    whichever order the glob lists the two files and also when each of the
    two instances of the job receives one of them.  For a dataset of fewer
    than two rows the training slice has no row: the script ends with
    [ValueError] in either order and x_train.npy is not written. *)
Theorem processed_slices {B : Type}
    (standardise : matrix → exception + matrix) (x : matrix) (y : list B) :
  let k := training_index (length x) in
  let inputs := processing_input x y in
  let train_path := "/opt/ml/processing/train/x_train.npy" in
  let test_path := "/opt/ml/processing/test/x_test.npy" in
  (∀ train test,
     fit_transform standardise (take k x) = inr train →
     fit_transform standardise (drop k x) = inr test →
     2 ≤ length x ∧
     main standardise inputs =
       ScriptRun (ScriptState [(train_path, train); (test_path, test)]
                              (<[test_path := test]> (<[train_path := train]> ∅)))
                 None ∧
     uncaught (main standardise (reverse inputs)) = None ∧
     disk (at_exit (main standardise (reverse inputs)))
       = disk (at_exit (main standardise inputs)) ∧
     uncaught (main standardise (take 1 inputs)) = None ∧
     uncaught (main standardise (drop 1 inputs)) = None ∧
     disk (at_exit (main standardise (take 1 inputs)))
       ∪ disk (at_exit (main standardise (drop 1 inputs)))
       = disk (at_exit (main standardise inputs))) ∧
  (length x < 2 →
     uncaught (main standardise inputs) = Some ValueError ∧
     uncaught (main standardise (reverse inputs)) = Some ValueError ∧
     saved (at_exit (main standardise inputs)) = [] ∧
     disk (at_exit (main standardise (reverse inputs))) !! train_path = None).
Proof.
  cbv zeta. unfold processing_input, train_test_split. cbn [x_train x_test].
  set (k := training_index (length x)).
  split.
  - intros train test Htrain Htest.
    split.
    { apply (fit_transform_returns standardise) in Htrain as (Hne & _).
      destruct (decide (2 ≤ length x)) as [| Hsmall]; [done |].
      exfalso. apply Hne. apply length_zero_iff_nil.
      rewrite length_take. unfold k, training_index.
      assert (length x = 0 ∨ length x = 1) as [-> | ->] by lia;
        reflexivity. }
    unfold main.
    cbn [reverse rev_append take drop for_loop loop_body fst snd app].
    rewrite Htrain, Htest. cbn [contains]. simpl String.prefix.
    cbn [orb]. cbn [for_loop loop_body].
    rewrite ?Htrain, ?Htest. simpl.
    repeat split.
  - intros Hsmall.
    assert (take k x = []) as ->.
    { apply length_zero_iff_nil. rewrite length_take.
      unfold k, training_index.
      assert (length x = 0 ∨ length x = 1) as [-> | ->] by lia;
        reflexivity. }
    unfold main.
    cbn [reverse rev_append for_loop loop_body fst snd app].
    rewrite fit_transform_no_rows. cbn [uncaught at_exit saved].
    split; [reflexivity |].
    destruct (fit_transform standardise (drop k x)) as [[] | t];
      cbn [for_loop loop_body]; rewrite ?fit_transform_no_rows;
      cbn [uncaught at_exit saved disk]; repeat split; try done.
Qed.

End StorageFacts.

(** A dataset of five rows, for a library that hands back the arrays it
    accepts unchanged: four rows end up in x_train.npy and one in
    x_test.npy. *)
Lemma processed_slices_witness :
  let std : DataPrep.matrix → DataPrep.exception + DataPrep.matrix := inr in
  let row := [PrimFloat.one; PrimFloat.two] in
  let x := [row; row; row; row; [PrimFloat.two; PrimFloat.one]] in
  DataPrep.saved
    (DataPrep.at_exit
       (DataPrep.main std (Storage.processing_input x [1; 2; 3; 4; 5])))
  = [("/opt/ml/processing/train/x_train.npy", [row; row; row; row]);
     ("/opt/ml/processing/test/x_test.npy", [[PrimFloat.two; PrimFloat.one]])].
Proof.
  intros std row x.
  destruct (processed_slices std x [1; 2; 3; 4; 5]) as [Hrun _].
  destruct (Hrun [row; row; row; row] [[PrimFloat.two; PrimFloat.one]]
              eq_refl eq_refl) as (_ & -> & _).
  reflexivity.
Defined.

(** ** One execution of the workflow and its clean up *)

Section ExecutionFacts.
Import Orchestration Execution.
Local Set Warnings "-clear-no-such-hyp".

Lemma execute_inr (timestamp id : string) (p p1 : platform) :
  execute timestamp id p = inr p1 ↔
  names_free timestamp id p ∧ p1 = executed timestamp id p.
Proof.
  unfold execute, names_free, executed.
  change (map kind workflow_definition)
    with [ProcessingStep; TrainingStep; ModelStep; EndpointConfigStep;
          EndpointStep].
  cbn [run_states run_state TrainingJobName ModelName EndpointName].
  destruct (decide (sf_processing_job_name timestamp ∈ processing_jobs p))
    as [Hp | Hp].
  { split; [discriminate | tauto]. }
  cbn [processing_jobs training_jobs models endpoint_configs endpoints].
  destruct (decide (training_job_name id ∈ training_jobs p)) as [Hj | Hj].
  { split; [discriminate | tauto]. }
  cbn [processing_jobs training_jobs models endpoint_configs endpoints].
  destruct (decide (model_name id ∈ models p)) as [Hm | Hm].
  { split; [discriminate | tauto]. }
  cbn [processing_jobs training_jobs models endpoint_configs endpoints].
  destruct (decide (model_name id ∈ endpoint_configs p)) as [Hc | Hc].
  { split; [discriminate | tauto]. }
  destruct (decide (model_name id ∈ {[model_name id]} ∪ models p))
    as [_ | Hn]; [| exfalso; set_solver].
  cbn [processing_jobs training_jobs models endpoint_configs endpoints].
  destruct (decide (is_Some (endpoints p !! endpoint_name id))) as [He | He].
  { split; [discriminate |]. intros [(_ & _ & _ & _ & Hnone) _].
    rewrite Hnone in He. by destruct He. }
  destruct (decide (model_name id ∈ {[model_name id]} ∪ endpoint_configs p))
    as [_ | Hn]; [| exfalso; set_solver].
  split.
  - intros [= <-]. repeat split; try done.
    by apply eq_None_not_Some.
  - by intros [_ ->].
Qed.

Lemma execute_job_name_taken (timestamp id : string) (p : platform) :
  sf_processing_job_name timestamp ∈ processing_jobs p →
  execute timestamp id p = inl (NameInUse (sf_processing_job_name timestamp)).
Proof.
  intros Hp. unfold execute.
  change (map kind workflow_definition)
    with [ProcessingStep; TrainingStep; ModelStep; EndpointConfigStep;
          EndpointStep].
  cbn [run_states run_state].
  by destruct (decide (sf_processing_job_name timestamp ∈ processing_jobs p)).
Qed.

Lemma delete_endpoint_executed (timestamp id : string) (p : platform) :
  names_free timestamp id p →
  delete_endpoint (endpoint_name id) (executed timestamp id p)
  = inr (Platform ({[sf_processing_job_name timestamp]} ∪ processing_jobs p)
                  ({[training_job_name id]} ∪ training_jobs p)
                  ({[model_name id]} ∪ models p)
                  (endpoint_configs p) (endpoints p)).
Proof.
  intros (_ & _ & _ & Hc & He). unfold delete_endpoint, executed.
  cbn [processing_jobs training_jobs models endpoint_configs endpoints].
  rewrite lookup_insert_eq. f_equal. f_equal.
  - set_solver.
  - rewrite delete_insert_eq. by apply delete_id.
Qed.

(** X16: an execution goes through exactly when the processing-job name
    of the definition, the training-job name, the model name (also the
    name of the endpoint configuration) and the endpoint name are free.
    The clean up that follows deletes the endpoint and its configuration
    and nothing else: the model and the two jobs of the execution stay on
    the platform. *)
Theorem execution_and_clean_up (timestamp id : string) (p : platform) :
  ((∃ p1, execute timestamp id p = inr p1) ↔ names_free timestamp id p) ∧
  (names_free timestamp id p →
   ∃ p1 p2,
     execute timestamp id p = inr p1 ∧
     delete_endpoint (endpoint_name id) p1 = inr p2 ∧
     endpoints p2 = endpoints p ∧
     endpoint_configs p2 = endpoint_configs p ∧
     models p2 = {[model_name id]} ∪ models p ∧
     training_jobs p2 = {[training_job_name id]} ∪ training_jobs p ∧
     processing_jobs p2
       = {[sf_processing_job_name timestamp]} ∪ processing_jobs p).
Proof.
  split.
  - split.
    + intros [p1 H]. by apply execute_inr in H as [H _].
    + intros H. exists (executed timestamp id p). by apply execute_inr.
  - intros Hfree. eexists _, _. split; [by apply execute_inr |].
    split; [by apply delete_endpoint_executed |]. done.
Qed.

(** X17: a workflow definition can be executed once only.  Its processing
    step carries a job name fixed when the step was defined, so after one
    execution every further execution of the same definition fails at the
    Preprocessing state because that name is taken, with the same id or a
    new one, before or after the clean up.  A definition made at another
    time, executed with another id, is not hindered by the first. *)
Theorem workflow_executes_once (timestamp id : string) (p p1 : platform) :
  execute timestamp id p = inr p1 →
  (∀ id', execute timestamp id' p1
          = inl (NameInUse (sf_processing_job_name timestamp))) ∧
  (∀ p2 id', delete_endpoint (endpoint_name id) p1 = inr p2 →
             execute timestamp id' p2
             = inl (NameInUse (sf_processing_job_name timestamp))) ∧
  (∀ timestamp' id',
     timestamp' ≠ timestamp → id' ≠ id → names_free timestamp' id' p →
     ∃ p', execute timestamp' id' p1 = inr p').
Proof.
  intros H. apply execute_inr in H as [Hfree ->].
  split; [| split].
  - intros id'. apply execute_job_name_taken. unfold executed. cbn. set_solver.
  - intros p2 id'. rewrite delete_endpoint_executed by done.
    intros [= <-]. apply execute_job_name_taken. cbn. set_solver.
  - intros timestamp' id' Hts Hne (Hp & Hj & Hm & Hc & He).
    exists (executed timestamp' id' (executed timestamp id p)).
    apply execute_inr. split; [| done].
    assert (sf_processing_job_name timestamp'
            ≠ sf_processing_job_name timestamp) as Hpn.
    { unfold sf_processing_job_name. intros Heq. apply Hts.
      by apply (inj (String.append "pytorch-2-stepfunctions-processing-"))
        in Heq. }
    assert (training_job_name id' ≠ training_job_name id) as Hjn.
    { unfold training_job_name. intros Heq. apply Hne.
      apply (inj (String.append "BostonHousing-")) in Heq.
      exact (append_cancel_r id' id "-Train" Heq). }
    assert (model_name id' ≠ model_name id) as Hmn.
    { unfold model_name. intros Heq. apply Hne.
      apply (inj (String.append "BostonHousting-")) in Heq.
      exact (append_cancel_r id' id "-Model" Heq). }
    assert (endpoint_name id' ≠ endpoint_name id) as Hen.
    { unfold endpoint_name. intros Heq. apply Hne.
      apply (inj (String.append "BostonHousing-")) in Heq.
      exact (append_cancel_r id' id "-Endpoint" Heq). }
    unfold names_free, executed.
    cbn [processing_jobs training_jobs models endpoint_configs endpoints].
    repeat split; [set_solver | set_solver | set_solver | set_solver |].
    by rewrite lookup_insert_ne.
Qed.

End ExecutionFacts.

Lemma execution_and_clean_up_witness :
  ∃ p1 p2,
    Execution.execute "02-10-15-00" "0f3a" (Execution.Platform ∅ ∅ ∅ ∅ ∅)
      = inr p1 ∧
    Execution.delete_endpoint (Orchestration.endpoint_name "0f3a") p1
      = inr p2 ∧
    Execution.endpoints p2 = ∅.
Proof.
  destruct (execution_and_clean_up "02-10-15-00" "0f3a"
              (Execution.Platform ∅ ∅ ∅ ∅ ∅)) as [_ H].
  destruct H as (p1 & p2 & H1 & H2 & H3 & _).
  - unfold Execution.names_free. cbn. repeat split; set_solver.
  - exists p1, p2. by repeat split.
Defined.

Lemma workflow_executes_once_witness :
  Execution.execute "02-10-15-00" "77b1"
    (Execution.executed "02-10-15-00" "0f3a" (Execution.Platform ∅ ∅ ∅ ∅ ∅))
  = inl (Execution.NameInUse
           (Execution.sf_processing_job_name "02-10-15-00")).
Proof.
  apply (workflow_executes_once "02-10-15-00" "0f3a"
           (Execution.Platform ∅ ∅ ∅ ∅ ∅)).
  apply execute_inr. split; [| reflexivity].
  unfold Execution.names_free. cbn. repeat split; set_solver.
Defined.
